(** * planetaryum: the extractor pipeline ([planetaryum/extractors.py])

    A shallow embedding of the extractor classes and of the [extract]
    generator, followed by the properties of the specification that
    concern them.

    Python values are an inductive type, dictionaries are association
    lists in insertion order, exceptions are values of a sum type, and
    the two observable effects of the module (opening a document and
    printing a diagnostic) are recorded in an event trace.  The JSON
    parser, the base64 codec, the image library and the notebook
    exporter are external to the module: they are the fields of the
    class [Collaborators], and every definition and theorem is stated
    for an arbitrary instance of it. *)

From Stdlib Require Import List String Ascii ZArith Bool Lia.
From Stdlib Require Import Strings.Byte.
From Stdlib Require Import Floats.SpecFloat DecimalString.
Import ListNotations.

Local Open Scope string_scope.
Local Open Scope list_scope.

Set Warnings "-register-all".

(** ** Python values *)

Definition bytes := list byte.

(** The values that the module handles: what [json.load] returns
    ([None], [bool], [int], [float], [str], [list], [dict] with string
    keys), plus [bytes] (the result of [read()]) and tuples (the
    thumbnail size). *)
Inductive pyobj : Type :=
| PNone
| PBool (b : bool)
| PInt (n : Z)
| PFloat (x : spec_float)
| PStr (s : string)
| PBytes (b : bytes)
| PList (l : list pyobj)
| PTuple (l : list pyobj)
| PDict (d : list (string * pyobj)).

Definition dict := list (string * pyobj).

(** ** Exceptions *)

Inductive exn : Type :=
| KeyError (key : string)  (* subclass of LookupError *)
| IndexError              (* subclass of LookupError *)
| TypeError
| AttributeError
| ValueError
| binascii_Error          (* subclass of ValueError *)
| JSONDecodeError         (* subclass of ValueError *)
| OSError
| UnidentifiedImageError  (* PIL; subclass of OSError *)
| RuntimeError
| NotImplementedError     (* subclass of RuntimeError *)
| RecursionError          (* subclass of RuntimeError *)
| ConversionError.        (* whatever the exporter raises *)

(** [isinstance(e, RuntimeError)]: what [except RuntimeError] catches. *)
Definition isinstance_RuntimeError (e : exn) : bool :=
  match e with
  | RuntimeError | NotImplementedError | RecursionError => true
  | _ => false
  end.

(** [isinstance(e, LookupError)]. *)
Definition isinstance_LookupError (e : exn) : bool :=
  match e with
  | KeyError _ | IndexError => true
  | _ => false
  end.

Inductive pyresult (A : Type) : Type :=
| Ok (a : A)
| Raise (e : exn).
Arguments Ok {A} a.
Arguments Raise {A} e.

(** ** Effects: a trace of events and an exception *)

Inductive event : Type :=
| Opened (name : string)    (* [nb.open()] for the document paired with [name] *)
| Closed (name : string)    (* leaving the [with] block *)
| Printed (msg : string).   (* [print(msg)] *)

Definition M (A : Type) : Type := (list event * pyresult A)%type.

Definition ret {A} (a : A) : M A := ([], Ok a).
Definition raise {A} (e : exn) : M A := ([], Raise e).
Definition emit (ev : event) : M unit := ([ev], Ok tt).
Definition lift {A} (r : pyresult A) : M A := ([], r).

Definition bind {A B} (m : M A) (k : A -> M B) : M B :=
  match m with
  | (t, Ok a) => let '(t', r) := k a in (t ++ t', r)
  | (t, Raise e) => (t, Raise e)
  end.

Declare Scope py_scope.
Delimit Scope py_scope with py.
Notation "x <- m ;; k" := (bind m (fun x => k))
  (at level 61, m at next level, right associativity) : py_scope.
Notation "m ;;; k" := (bind m (fun _ => k))
  (at level 61, right associativity) : py_scope.
Local Open Scope py_scope.

Definition events {A} (m : M A) : list event := fst m.
Definition outcome {A} (m : M A) : pyresult A := snd m.

(** A [for] loop that threads a value through its body and stops at the
    first exception. *)
Fixpoint for_each {A S} (body : A -> S -> M S) (l : list A) (s : S) : M S :=
  match l with
  | [] => ret s
  | x :: l' => s' <- body x s ;; for_each body l' s'
  end.

(** ** Dictionaries: association lists in insertion order *)

Fixpoint dict_get (k : string) (d : dict) : option pyobj :=
  match d with
  | [] => None
  | (k', v) :: d' => if String.eqb k k' then Some v else dict_get k d'
  end.

(** [d[k] = v]: an existing key keeps its position, a new key goes last. *)
Fixpoint dict_set (k : string) (v : pyobj) (d : dict) : dict :=
  match d with
  | [] => [(k, v)]
  | (k', v') :: d' =>
      if String.eqb k k' then (k', v) :: d' else (k', v') :: dict_set k v d'
  end.

Definition dict_keys (d : dict) : list string := map fst d.

(** The entries under other keys, in order. *)
Definition dict_without (k : string) (d : dict) : dict :=
  filter (fun kv => negb (String.eqb k (fst kv))) d.

(** ** Operations of Python objects used by the module *)

(** [bool(x)]. *)
Definition truthy (x : pyobj) : bool :=
  match x with
  | PNone => false
  | PBool b => b
  | PInt n => negb (Z.eqb n 0)
  | PFloat x => match x with S754_zero _ => false | _ => true end
  | PStr s => negb (String.eqb s "")
  | PBytes b => match b with [] => false | _ => true end
  | PList l | PTuple l => match l with [] => false | _ => true end
  | PDict d => match d with [] => false | _ => true end
  end.

(** [x is True]. *)
Definition is_True (x : pyobj) : bool :=
  match x with PBool true => true | _ => false end.

(** [x.get(k, default)]: only a dict has a [get] method. *)
Definition py_get (x : pyobj) (k : string) (default : pyobj) : pyresult pyobj :=
  match x with
  | PDict d => Ok (match dict_get k d with Some v => v | None => default end)
  | _ => Raise AttributeError
  end.

(** [x[k]] for a string [k]. *)
Definition py_getitem (x : pyobj) (k : string) : pyresult pyobj :=
  match x with
  | PDict d => match dict_get k d with Some v => Ok v | None => Raise (KeyError k) end
  | _ => Raise TypeError
  end.

(** [x[k] = v] for a string [k]. *)
Definition py_setitem (x : pyobj) (k : string) (v : pyobj) : pyresult pyobj :=
  match x with
  | PDict d => Ok (PDict (dict_set k v d))
  | _ => Raise TypeError
  end.

(** [x.items()]. *)
Definition py_items (x : pyobj) : pyresult (list (string * pyobj)) :=
  match x with
  | PDict d => Ok d
  | _ => Raise AttributeError
  end.

Definition chars_of (s : string) : list pyobj :=
  map (fun c => PStr (String c "")) (list_ascii_of_string s).

(** [iter(x)], as the list of the elements a [for] loop visits: a dict
    yields its keys and a string its characters. *)
Definition py_iter (x : pyobj) : pyresult (list pyobj) :=
  match x with
  | PList l | PTuple l => Ok l
  | PDict d => Ok (map PStr (dict_keys d))
  | PStr s => Ok (chars_of s)
  | PBytes b => Ok (map (fun c => PInt (Z.of_N (Byte.to_N c))) b)
  | _ => Raise TypeError
  end.

(** [x == s] for a string literal [s]. *)
Definition py_eq_str (x : pyobj) (s : string) : bool :=
  match x with PStr s' => String.eqb s' s | _ => false end.

(** [s.lower()].  Strings are kept as byte strings; the only code points
    outside ASCII whose lower case contains an ASCII letter are U+0130 and
    U+212A, and neither can produce one of the two MIME types tested
    below, so lowering the ASCII letters decides the test as Python
    does. *)
Definition lower_ascii (c : ascii) : ascii :=
  let n := nat_of_ascii c in
  if andb (Nat.leb 65 n) (Nat.leb n 90) then ascii_of_nat (n + 32) else c.

Fixpoint lower (s : string) : string :=
  match s with
  | EmptyString => EmptyString
  | String c s' => String (lower_ascii c) (lower s')
  end.

Fixpoint str_in (s : string) (l : list string) : bool :=
  match l with
  | [] => false
  | x :: l' => orb (String.eqb s x) (str_in s l')
  end.

(** ** Documents and streams *)

(** A document handle supports repeated [open()]; every stream it gives
    starts at the first byte. *)
Record handle : Type := { content : bytes }.

Record stream : Type := { data : bytes; pos : nat }.

Definition handle_open (nb : handle) : stream := {| data := content nb; pos := 0 |}.

(** [f.read()]: everything from the current position. *)
Definition read (f : stream) : bytes := skipn (pos f) (data f).

(** ** External collaborators *)

(** The libraries the module calls.  [json_loads] is [json.load] on the
    bytes that the stream still has to give; [b64decode] is applied to
    whatever value the notebook holds, so it takes a [pyobj];
    [Image_thumbnail] receives the configured size as the Python value
    it is; every call that can raise returns a [pyresult]. *)
Class Collaborators : Type := {
  json_loads : bytes -> pyresult pyobj;
  b64decode : pyobj -> pyresult bytes;
  b64encode : bytes -> string;
  image : Type;
  image_size : image -> Z * Z;
  Image_open : bytes -> pyresult image;
  Image_thumbnail : image -> pyobj -> pyresult image;
  Image_save_png : image -> pyresult bytes;
  HTMLExporter_from_file : string -> stream -> dict -> pyresult (string * dict)
}.

(** ** The extractor classes *)

Inductive extractor_class : Type :=
| CExtractor | CJSONExtractor | CMetadataExtractor | CBlobExtractor | CHTMLExtractor.

(** [cls.__name__]. *)
Definition class_name (c : extractor_class) : string :=
  match c with
  | CExtractor => "Extractor"
  | CJSONExtractor => "JSONExtractor"
  | CMetadataExtractor => "MetadataExtractor"
  | CBlobExtractor => "BlobExtractor"
  | CHTMLExtractor => "HTMLExtractor"
  end.

(** An extractor object: its class and its attributes. *)
Inductive extractor : Type :=
| Extractor (name : string)
| JSONExtractor (name : string)
| MetadataExtractor (name : string) (thumbnails : pyobj)
| BlobExtractor (name : string)
| HTMLExtractor (name : string) (template_file : string).

(** [Extractor.__init__], run for an object of class [c]; an omitted
    [name] is [None]. *)
Definition Extractor_init (c : extractor_class) (name : option string) : string :=
  match name with
  | None => class_name c
  | Some n => n
  end.

Definition new_Extractor (name : option string) : extractor :=
  Extractor (Extractor_init CExtractor name).

Definition new_JSONExtractor (name : option string) : extractor :=
  JSONExtractor (Extractor_init CJSONExtractor name).

Definition default_size : pyobj := PTuple [PInt 200; PInt 200].

(** [MetadataExtractor.__init__]. *)
Definition new_MetadataExtractor (name : option string) (thumbnails : pyobj) : extractor :=
  MetadataExtractor (Extractor_init CMetadataExtractor name)
    (if is_True thumbnails then default_size else thumbnails).

Definition new_BlobExtractor (name : option string) : extractor :=
  BlobExtractor (Extractor_init CBlobExtractor name).

(** [HTMLExtractor.__init__]: [template_file or 'basic.tpl']. *)
Definition new_HTMLExtractor (name : option string) (template_file : option string) : extractor :=
  HTMLExtractor (Extractor_init CHTMLExtractor name)
    (match template_file with
     | Some t => if String.eqb t "" then "basic.tpl" else t
     | None => "basic.tpl"
     end).

(** [e.name]. *)
Definition ext_name (e : extractor) : string :=
  match e with
  | Extractor n | JSONExtractor n | MetadataExtractor n _
  | BlobExtractor n | HTMLExtractor n _ => n
  end.

Definition ext_class (e : extractor) : extractor_class :=
  match e with
  | Extractor _ => CExtractor
  | JSONExtractor _ => CJSONExtractor
  | MetadataExtractor _ _ => CMetadataExtractor
  | BlobExtractor _ => CBlobExtractor
  | HTMLExtractor _ _ => CHTMLExtractor
  end.

Section Extractors.

Context {C : Collaborators}.

(** [JSONExtractor.__call__]. *)
Definition JSONExtractor_call (nb : stream) (name : string) : M pyobj :=
  lift (json_loads (read nb)).

Definition image_types : list string := ["image/png"; "image/jpeg"].

Definition data_uri (png : bytes) : string :=
  "data:image/png;base64," ++ b64encode png.

(** [Image.open(io.BytesIO(base64.b64decode(d)))], the expression under
    [try]. *)
Definition decode_image (d : pyobj) : pyresult image :=
  match b64decode d with
  | Ok b => Image_open b
  | Raise e => Raise e
  end.

(** The body of [for d in data] (lines 52-61). *)
Definition thumb_payload (size : pyobj) (key : string) (d : pyobj)
    (thumbs : list string) : M (list string) :=
  match decode_image d with
  | Raise e =>
      if isinstance_RuntimeError e
      then emit (Printed ("Can't decode image of type: " ++ key ++ ".")) ;;; ret thumbs
      else raise e
  | Ok t =>
      t' <- lift (Image_thumbnail t size) ;;
      out <- lift (Image_save_png t') ;;
      ret (thumbs ++ [data_uri out])
  end.

(** [if type(data) is not list: data = [data]]. *)
Definition as_list (data : pyobj) : list pyobj :=
  match data with
  | PList l => l
  | _ => [data]
  end.

(** The body of [for key, data in out.get('data', {}).items()]. *)
Definition thumb_item (size : pyobj) (item : string * pyobj)
    (thumbs : list string) : M (list string) :=
  let '(key, data) := item in
  if str_in (lower key) image_types
  then for_each (thumb_payload size key) (as_list data) thumbs
  else ret thumbs.

(** The body of [for out in cell.get('outputs', [])]. *)
Definition thumb_output (size : pyobj) (out : pyobj)
    (thumbs : list string) : M (list string) :=
  output_type <- lift (py_get out "output_type" PNone) ;;
  if py_eq_str output_type "display_data"
  then
    data <- lift (py_get out "data" (PDict [])) ;;
    items <- lift (py_items data) ;;
    for_each (thumb_item size) items thumbs
  else ret thumbs.

(** The body of [for cell in nb['cells']]. *)
Definition thumb_cell (size : pyobj) (cell : pyobj)
    (thumbs : list string) : M (list string) :=
  outputs <- lift (py_get cell "outputs" (PList [])) ;;
  outs <- lift (py_iter outputs) ;;
  for_each (thumb_output size) outs thumbs.

(** [MetadataExtractor.__call__].  The list [thumbs] is the object stored
    under [meta['thumbs']]: what is appended to one is seen through the
    other, so the mapping returned holds the final list at the position
    that the assignment of line 43 gave the key.  Nothing else is
    mutated, and [meta] shares no object with [nb['cells']]. *)
Definition MetadataExtractor_call (thumbnails : pyobj) (nb : stream)
    (name : string) : M pyobj :=
  nb <- JSONExtractor_call nb name ;;
  meta <- lift (py_get nb "metadata" (PDict [])) ;;
  if truthy thumbnails
  then
    meta <- lift (py_setitem meta "thumbs" (PList [])) ;;
    cells <- lift (py_getitem nb "cells") ;;
    cells <- lift (py_iter cells) ;;
    thumbs <- for_each (thumb_cell thumbnails) cells [] ;;
    lift (py_setitem meta "thumbs" (PList (map PStr thumbs)))
  else ret meta.

(** [BlobExtractor.__call__]. *)
Definition BlobExtractor_call (nb : stream) (name : string) : M pyobj :=
  ret (PBytes (read nb)).

(** [HTMLExtractor.__call__]. *)
Definition HTMLExtractor_call (template_file : string) (nb : stream)
    (name : string) : M pyobj :=
  r <- lift (HTMLExporter_from_file template_file nb [("filename", PStr name)]) ;;
  let '(html, meta) := r in
  let meta := dict_set "filename" (PStr name) meta in
  ret (PDict [("meta", PDict meta); ("html", PStr html)]).

(** [e(f, name)].  The base class defines no [__call__]. *)
Definition call (e : extractor) (f : stream) (name : string) : M pyobj :=
  match e with
  | Extractor _ => raise TypeError
  | JSONExtractor _ => JSONExtractor_call f name
  | MetadataExtractor _ thumbnails => MetadataExtractor_call thumbnails f name
  | BlobExtractor _ => BlobExtractor_call f name
  | HTMLExtractor _ template_file => HTMLExtractor_call template_file f name
  end.

End Extractors.

(** ** The generator [extract] *)

Definition document : Type := (handle * string)%type.

(** A generator object: suspended with the part of the reader it has
    not visited yet (a generator that was never resumed is suspended
    before the whole reader), or finished. *)
Inductive generator : Type :=
| Suspended (reader : list document) (extractors : list extractor)
| Finished.

(** What [next(g)] gives its caller. *)
Inductive step : Type :=
| Yield (d : dict)
| StopIteration
| Raised (e : exn).

Section Extract.

Context {C : Collaborators}.

(** [with nb.open() as f: body]: the stream is opened, the body runs,
    and the stream is closed whether the body returned or raised. *)
Definition with_open {A} (nb : handle) (name : string) (body : stream -> M A) : M A :=
  let '(t, r) := body (handle_open nb) in
  (Opened name :: t ++ [Closed name], r).

(** The body of [for e in extractors] (lines 129-130). *)
Definition run_extractor (nb : handle) (name : string) (e : extractor)
    (d : dict) : M dict :=
  with_open nb name (fun f =>
    v <- call e f name ;;
    ret (dict_set (ext_name e) v d)).

(** The body of [for nb, name in reader] up to the [yield] (lines
    127-131). *)
Definition build_record (extractors : list extractor) (doc : document) : M dict :=
  let '(nb, name) := doc in
  d <- for_each (run_extractor nb name) extractors [] ;;
  ret (dict_set "name" (PStr name) d).

(** Calling [extract] runs none of its body. *)
Definition extract (reader : list document) (extractors : list extractor) : generator :=
  Suspended reader extractors.

(** [next(g)]: run the body up to the next [yield].  An exception that
    leaves the body finishes the generator. *)
Definition next (g : generator) : list event * step * generator :=
  match g with
  | Finished => ([], StopIteration, Finished)
  | Suspended [] _ => ([], StopIteration, Finished)
  | Suspended (doc :: reader) extractors =>
      match build_record extractors doc with
      | (t, Ok d) => (t, Yield d, Suspended reader extractors)
      | (t, Raise e) => (t, Raised e, Finished)
      end
  end.

(** How a consumer that asks for at most [n] elements ends. *)
Inductive ending : Type :=
| Pending (g : generator)   (* it stopped asking *)
| Exhausted                 (* [StopIteration] *)
| Failed (e : exn).         (* an exception reached it *)

(** A consumer that calls [next] until it has [n] records, the
    generator stops or an exception is raised: the trace, the records
    received, and how it ended. *)
Fixpoint consume (n : nat) (g : generator) : list event * list dict * ending :=
  match n with
  | O => ([], [], Pending g)
  | S n' =>
      match next g with
      | (t, Yield d, g') =>
          let '(t', ds, e) := consume n' g' in (t ++ t', d :: ds, e)
      | (t, StopIteration, _) => (t, [], Exhausted)
      | (t, Raised e, _) => (t, [], Failed e)
      end
  end.

(** [list(g)]: one more request than there are documents left is enough
    to reach the end. *)
Definition remaining (g : generator) : nat :=
  match g with
  | Suspended reader _ => List.length reader
  | Finished => 0
  end.

Definition py_list (g : generator) : list event * list dict * ending :=
  consume (S (remaining g)) g.

End Extract.

(** ** A reference instance of the collaborators

    Used to run the embedding on concrete documents.  Base64 is the
    standard alphabet with padding; the parser recognises the JSON text
    of a given finite set of values; an image file is a magic byte
    followed by a width and a height; a thumbnail is computed with the
    integer arithmetic of the usual shrink-to-fit rule. *)
Module Reference.

Definition b64_alphabet : string :=
  "ABCDEFGHIJKLMNOPQRSTUVWXYZabcdefghijklmnopqrstuvwxyz0123456789+/".

Definition b64_char (n : N) : ascii :=
  match String.get (N.to_nat n) b64_alphabet with
  | Some c => c
  | None => "="%char
  end.

Fixpoint b64_encode (l : bytes) : string :=
  match l with
  | [] => ""
  | [a] =>
      let x := Byte.to_N a in
      String (b64_char (x / 4)) (String (b64_char ((x mod 4) * 16)) "==")
  | [a; b] =>
      let x := Byte.to_N a in
      let y := Byte.to_N b in
      String (b64_char (x / 4))
        (String (b64_char ((x mod 4) * 16 + y / 16))
           (String (b64_char ((y mod 16) * 4)) "="))
  | a :: b :: c :: l' =>
      let x := Byte.to_N a in
      let y := Byte.to_N b in
      let z := Byte.to_N c in
      String (b64_char (x / 4))
        (String (b64_char ((x mod 4) * 16 + y / 16))
           (String (b64_char ((y mod 16) * 4 + z / 64))
              (String (b64_char (z mod 64)) (b64_encode l'))))
  end.

Fixpoint index_of (c : ascii) (s : string) (i : N) : option N :=
  match s with
  | EmptyString => None
  | String c' s' => if Ascii.eqb c c' then Some i else index_of c s' (i + 1)
  end.

Definition b64_value (c : ascii) : option N := index_of c b64_alphabet 0.

Definition byte_of (n : N) : byte :=
  match Byte.of_N (n mod 256) with
  | Some b => b
  | None => x00
  end.

Definition is_pad (c : ascii) : bool := Ascii.eqb c "="%char.

(** Groups of four characters; the last one may be padded. *)
Fixpoint b64_groups (l : list ascii) : pyresult bytes :=
  match l with
  | [] => Ok []
  | c1 :: c2 :: c3 :: c4 :: l' =>
      match b64_value c1, b64_value c2 with
      | Some v1, Some v2 =>
          let b1 := byte_of (v1 * 4 + v2 / 16) in
          match b64_value c3, b64_value c4, l' with
          | Some v3, Some v4, _ =>
              match b64_groups l' with
              | Ok bs =>
                  Ok (b1 :: byte_of ((v2 mod 16) * 16 + v3 / 4)
                         :: byte_of ((v3 mod 4) * 64 + v4) :: bs)
              | Raise e => Raise e
              end
          | Some v3, None, [] =>
              if is_pad c4
              then Ok [b1; byte_of ((v2 mod 16) * 16 + v3 / 4)]
              else Raise binascii_Error
          | None, None, [] =>
              if andb (is_pad c3) (is_pad c4) then Ok [b1] else Raise binascii_Error
          | _, _, _ => Raise binascii_Error
          end
      | _, _ => Raise binascii_Error
      end
  | _ => Raise binascii_Error
  end.

(** Characters outside the alphabet are discarded before decoding. *)
Definition b64_significant (c : ascii) : bool :=
  match b64_value c with
  | Some _ => true
  | None => is_pad c
  end.

Definition b64_decode (d : pyobj) : pyresult bytes :=
  match d with
  | PStr s => b64_groups (filter b64_significant (list_ascii_of_string s))
  | PBytes b => b64_groups (filter b64_significant (map ascii_of_byte b))
  | _ => Raise TypeError
  end.

(** JSON text of a value (strings without escapes). *)
Definition dq : string := String (ascii_of_nat 34) "".

Fixpoint dumps (v : pyobj) : string :=
  match v with
  | PNone => "null"
  | PBool true => "true"
  | PBool false => "false"
  | PInt n => DecimalString.NilZero.string_of_int (Z.to_int n)
  | PStr s => (dq ++ s ++ dq)%string
  | PList l =>
      ("[" ++ (fix items (l : list pyobj) : string :=
                 match l with
                 | [] => ""
                 | [x] => dumps x
                 | x :: l' => dumps x ++ ", " ++ items l'
                 end%string) l ++ "]")%string
  | PDict d =>
      ("{" ++ (fix items (d : list (string * pyobj)) : string :=
                 match d with
                 | [] => ""
                 | [(k, x)] => dq ++ k ++ dq ++ ": " ++ dumps x
                 | (k, x) :: d' => dq ++ k ++ dq ++ ": " ++ dumps x ++ ", " ++ items d'
                 end%string) d ++ "}")%string
  | PFloat _ | PBytes _ | PTuple _ => "?"
  end.

Definition encode (s : string) : bytes := list_byte_of_string s.

Definition bytes_eqb (a b : bytes) : bool :=
  String.eqb (string_of_list_byte a) (string_of_list_byte b).

(** The parser: the value among [known] whose JSON text is the input. *)
Fixpoint loads (known : list pyobj) (b : bytes) : pyresult pyobj :=
  match known with
  | [] => Raise JSONDecodeError
  | v :: known' => if bytes_eqb (encode (dumps v)) b then Ok v else loads known' b
  end.

(** Image files: the byte [x49], then the width and the height, both
    positive. *)
Definition picture : Type := (positive * positive)%type.

Definition picture_size (p : picture) : Z * Z := (Z.pos (fst p), Z.pos (snd p)).

Definition picture_open (b : bytes) : pyresult picture :=
  match b with
  | [x49; w; h] =>
      match Byte.to_N w, Byte.to_N h with
      | Npos pw, Npos ph => Ok (pw, ph)
      | _, _ => Raise UnidentifiedImageError
      end
  | _ => Raise UnidentifiedImageError
  end.

Definition picture_save (p : picture) : pyresult bytes :=
  Ok [x49; byte_of (Npos (fst p)); byte_of (Npos (snd p))].

(** Shrink [w] x [h] to fit [bw] x [bh], keeping the proportions. *)
Definition shrink (w h bw bh : Z) : Z * Z :=
  if andb (w <=? bw)%Z (h <=? bh)%Z then (w, h)
  else if (bh * w <=? bw * h)%Z
       then (Z.max 1 (bh * w / h), bh)
       else (bw, Z.max 1 (bw * h / w)).

Definition picture_thumbnail (p : picture) (size : pyobj) : pyresult picture :=
  match size with
  | PTuple [PInt bw; PInt bh] =>
      if andb (0 <? bw)%Z (0 <? bh)%Z
      then
        let '(w, h) := shrink (Z.pos (fst p)) (Z.pos (snd p)) bw bh in
        Ok (Z.to_pos w, Z.to_pos h)
      else Raise ValueError
  | _ => Raise TypeError
  end.

Definition export (template_file : string) (nb : stream) (resources : dict)
  : pyresult (string * dict) :=
  Ok (("<!-- " ++ template_file ++ " -->")%string, resources).

Definition collaborators (known : list pyobj) : Collaborators := {|
  json_loads := loads known;
  b64decode := b64_decode;
  b64encode := b64_encode;
  image := picture;
  image_size := picture_size;
  Image_open := picture_open;
  Image_thumbnail := picture_thumbnail;
  Image_save_png := picture_save;
  HTMLExporter_from_file := export
|}.

End Reference.

(** ** Sample documents *)

Module Samples.

Import Reference.

(** A picture file of the given size, as a base64 payload. *)
Definition payload (w h : N) : pyobj :=
  PStr (b64_encode [x49; byte_of w; byte_of h]).

Definition display (key : string) (data : pyobj) : pyobj :=
  PDict [("output_type", PStr "display_data"); ("data", PDict [(key, data)])].

Definition code_cell (outputs : list pyobj) : pyobj :=
  PDict [("cell_type", PStr "code"); ("outputs", PList outputs)].

Definition kernel : dict :=
  [("kernelspec", PDict [("name", PStr "python3")]); ("thumbs", PInt 3);
   ("title", PStr "demo")].

(** No image at all. *)
Definition plain : dict :=
  [("metadata", PDict kernel);
   ("cells", PList [PDict [("cell_type", PStr "markdown")]; code_cell []])].

(** A payload that is not base64 under [image/jpeg], then a picture
    under [image/png] in a later cell. *)
Definition corrupt_then_valid : dict :=
  [("metadata", PDict kernel);
   ("cells", PList [code_cell [display "image/jpeg" (PStr "abc")];
                    code_cell [display "image/png" (payload 250 100)]])].

(** Three pictures in a list under one key, one alone under another,
    and outputs that do not qualify. *)
Definition gallery : dict :=
  [("cells",
    PList [code_cell [display "text/plain" (PStr "abc")];
           PDict [];
           code_cell [PDict [("output_type", PStr "stream");
                             ("data", PDict [("image/png", payload 9 9)])];
                      display "Image/PNG"
                        (PList [payload 250 100; payload 10 20; payload 100 250]);
                      display "IMAGE/JPEG" (payload 40 30)]]);
   ("metadata", PDict [("title", PStr "gallery")])].

(** One picture, larger than the default box. *)
Definition one_picture : dict :=
  [("metadata", PDict [("title", PStr "one")]);
   ("cells", PList [code_cell [display "image/png" (payload 250 100)]])].

(** [metadata] is [null] and there is no [cells]. *)
Definition null_metadata : dict := [("metadata", PNone); ("nbformat", PInt 4)].

(** No [cells], and a mapping as [metadata]. *)
Definition no_cells : dict := [("metadata", PDict kernel); ("nbformat", PInt 4)].

Definition cells_of (doc : dict) : list pyobj :=
  match dict_get "cells" doc with
  | Some (PList cells) => cells
  | _ => []
  end.

Definition known : list pyobj :=
  [PDict plain; PDict corrupt_then_valid; PDict gallery; PDict one_picture;
   PDict null_metadata; PDict no_cells].

Definition world : Collaborators := collaborators known.

Definition file_of (doc : dict) : handle := {| content := encode (dumps (PDict doc)) |}.

Definition broken_file : handle := {| content := encode "{not json" |}.

(** Two documents and their names. *)
Definition two_documents : list document :=
  [(file_of plain, "a"); (file_of one_picture, "b")].

(** A good document, a document that is not JSON, another good one. *)
Definition broken_second : list document :=
  [(file_of plain, "a"); (broken_file, "b"); (file_of one_picture, "c")].

End Samples.

(** ** Vocabulary of the statements *)

(** The [metadata] field of a parsed document, [{}] when it is absent. *)
Definition metadata_of (doc : dict) : pyobj :=
  match dict_get "metadata" doc with
  | Some meta => meta
  | None => PDict []
  end.

Section Vocabulary.

Context {C : Collaborators}.

(** *** Candidate payloads, as the specification describes them *)

Definition outputs_of (cell : pyobj) : list pyobj :=
  match cell with
  | PDict c =>
      match dict_get "outputs" c with
      | Some (PList outs) => outs
      | _ => []
      end
  | _ => []
  end.

Definition is_display_data (out : pyobj) : bool :=
  match out with
  | PDict o =>
      match dict_get "output_type" o with
      | Some (PStr t) => String.eqb t "display_data"
      | _ => false
      end
  | _ => false
  end.

Definition data_of (out : pyobj) : dict :=
  match out with
  | PDict o =>
      match dict_get "data" o with
      | Some (PDict items) => items
      | _ => []
      end
  | _ => []
  end.

Definition eq_nocase (a b : string) : bool := String.eqb (lower a) (lower b).

Definition is_image_key (key : string) : bool :=
  orb (eq_nocase key "image/png") (eq_nocase key "image/jpeg").

Definition item_candidates (item : string * pyobj) : list (string * pyobj) :=
  if is_image_key (fst item)
  then map (pair (fst item)) (as_list (snd item))
  else [].

Definition output_candidates (out : pyobj) : list (string * pyobj) :=
  if is_display_data out then flat_map item_candidates (data_of out) else [].

Definition cell_candidates (cell : pyobj) : list (string * pyobj) :=
  flat_map output_candidates (outputs_of cell).

(** The pairs (key, payload) of a sequence of cells, in document order. *)
Definition candidates (cells : list pyobj) : list (string * pyobj) :=
  flat_map cell_candidates cells.

(** The cells follow the data model: a cell is a mapping whose
    [outputs], when present, is a list of mappings, and the [data] of a
    [display_data] output, when present, is a mapping. *)
Definition shaped_output (out : pyobj) : bool :=
  match out with
  | PDict o =>
      if is_display_data out
      then match dict_get "data" o with
           | None | Some (PDict _) => true
           | _ => false
           end
      else true
  | _ => false
  end.

Definition shaped_cell (cell : pyobj) : bool :=
  match cell with
  | PDict c =>
      match dict_get "outputs" c with
      | None => true
      | Some (PList outs) => forallb shaped_output outs
      | _ => false
      end
  | _ => false
  end.

(** What is done with one candidate. *)
Definition thumb_candidate (size : pyobj) (cand : string * pyobj)
    (thumbs : list string) : M (list string) :=
  thumb_payload size (fst cand) (snd cand) thumbs.

(** *** The contract of the image library's [thumbnail] *)

(** [new] fits in [box], is not larger than [old], and has the
    proportions of [old] up to the rounding of one pixel. *)
Definition fits_within (box old new : Z * Z) : Prop :=
  (fst new <= fst box /\ snd new <= snd box /\
   fst new <= fst old /\ snd new <= snd old /\
   Z.abs (fst new * snd old - snd new * fst old) <= Z.max (fst old) (snd old))%Z.

Definition thumbnail_contract : Prop :=
  forall (t t' : image) (bw bh : Z),
    Image_thumbnail t (PTuple [PInt bw; PInt bh]) = Ok t' ->
    fits_within (bw, bh) (image_size t) (image_size t').

(** *** Records *)

(** What the extractor [e] returns for a document ([None] stands for an
    exception). *)
Definition result_of (e : extractor) (doc : document) : pyobj :=
  match outcome (call e (handle_open (fst doc)) (snd doc)) with
  | Ok v => v
  | Raise _ => PNone
  end.

Definition succeeds (e : extractor) (doc : document) : Prop :=
  exists v, outcome (call e (handle_open (fst doc)) (snd doc)) = Ok v.

(** The dictionary [d] after the results of the extractors [es] have
    been stored under their names, in order. *)
Definition results_into (d : dict) (es : list extractor) (doc : document) : dict :=
  fold_left (fun d e => dict_set (ext_name e) (result_of e doc) d) es d.

(** The record of a document, as the specification describes it: the
    results under the extractors' names, then the document's name. *)
Definition record_of (extractors : list extractor) (doc : document) : dict :=
  dict_set "name" (PStr (snd doc)) (results_into [] extractors doc).

(** The events of one extractor on one document, and of a whole record. *)
Definition extractor_trace (doc : document) (e : extractor) : list event :=
  Opened (snd doc) :: events (call e (handle_open (fst doc)) (snd doc))
    ++ [Closed (snd doc)].

Definition record_trace (extractors : list extractor) (doc : document) : list event :=
  flat_map (extractor_trace doc) extractors.

End Vocabulary.

(** Construction of an extractor of class [c]; the arguments a class
    does not take are ignored. *)
Definition new (c : extractor_class) (name : option string) (thumbnails : pyobj)
    (template_file : option string) : extractor :=
  match c with
  | CExtractor => new_Extractor name
  | CJSONExtractor => new_JSONExtractor name
  | CMetadataExtractor => new_MetadataExtractor name thumbnails
  | CBlobExtractor => new_BlobExtractor name
  | CHTMLExtractor => new_HTMLExtractor name template_file
  end.


(** *** Traces *)

(** The diagnostic of line 55. *)
Definition is_diagnostic (ev : event) : bool :=
  match ev with
  | Printed msg => String.prefix "Can't decode image of type: " msg
  | _ => false
  end.

Definition is_data_uri (s : string) : bool :=
  String.prefix "data:image/png;base64," s.

(** Every [Opened] is followed by the [Closed] of the same name before
    anything else is opened; [opened] is the stream open so far. *)
Fixpoint balanced_from (opened : option string) (t : list event) : bool :=
  match t with
  | [] => match opened with None => true | Some _ => false end
  | Opened n :: t' =>
      match opened with
      | None => balanced_from (Some n) t'
      | Some _ => false
      end
  | Closed n :: t' =>
      match opened with
      | Some m => andb (String.eqb n m) (balanced_from None t')
      | None => false
      end
  | Printed _ :: t' => balanced_from opened t'
  end.

(** An image library whose [open] raises [RuntimeError] on an empty
    file, and documents to run it on. *)
Module Faulty.

Definition picture_open (b : bytes) : pyresult Reference.picture :=
  match b with
  | [] => Raise RuntimeError
  | _ => Reference.picture_open b
  end.

(** An empty payload under [image/jpeg] between two pictures. *)
Definition empty_between : dict :=
  [("metadata", PDict [("title", PStr "three")]);
   ("cells",
    PList [Samples.code_cell [Samples.display "image/png" (Samples.payload 250 100)];
           Samples.code_cell [Samples.display "image/jpeg" (PStr "");
                              Samples.display "image/png" (Samples.payload 10 20)]])].

Definition world : Collaborators := {|
  json_loads := Reference.loads [PDict empty_between];
  b64decode := Reference.b64_decode;
  b64encode := Reference.b64_encode;
  image := Reference.picture;
  image_size := Reference.picture_size;
  Image_open := picture_open;
  Image_thumbnail := Reference.picture_thumbnail;
  Image_save_png := Reference.picture_save;
  HTMLExporter_from_file := Reference.export
|}.

End Faulty.
(** * Properties *)

(** ** The monad *)

Lemma bind_ret {A B} (a : A) (k : A -> M B) : bind (ret a) k = k a.
Proof. unfold bind, ret. destruct (k a); reflexivity. Qed.

Lemma bind_lift_Ok {A B} (a : A) (k : A -> M B) : bind (lift (Ok a)) k = k a.
Proof. apply bind_ret. Qed.

Lemma bind_lift_Raise {A B} (e : exn) (k : A -> M B) :
  bind (lift (Raise e)) k = ([], Raise e).
Proof. reflexivity. Qed.

Lemma bind_Ok {A B} (t : list event) (a : A) (k : A -> M B) :
  bind (t, Ok a) k = (t ++ events (k a), outcome (k a)).
Proof. unfold bind, events, outcome. destruct (k a); reflexivity. Qed.

Lemma bind_Raise {A B} (t : list event) (e : exn) (k : A -> M B) :
  bind (t, Raise e) k = (t, Raise e).
Proof. reflexivity. Qed.

Lemma bind_ret_r {A} (m : M A) : bind m ret = m.
Proof.
  destruct m as [t [a | e]]; cbn; [rewrite app_nil_r|]; reflexivity.
Qed.

Lemma bind_assoc {A B D} (m : M A) (k : A -> M B) (h : B -> M D) :
  bind (bind m k) h = bind m (fun a => bind (k a) h).
Proof.
  destruct m as [t [a | e]]; [|reflexivity].
  rewrite !bind_Ok.
  destruct (k a) as [t' [b | e]]; cbn.
  - destruct (h b) as [t'' r]; cbn. rewrite app_assoc. reflexivity.
  - reflexivity.
Qed.

Lemma bind_ext {A B} (m : M A) (k k' : A -> M B) :
  (forall a, k a = k' a) -> bind m k = bind m k'.
Proof.
  intros H. destruct m as [t [a | e]]; cbn; [rewrite H|]; reflexivity.
Qed.

Lemma for_each_app {A S} (body : A -> S -> M S) (l1 l2 : list A) (s : S) :
  for_each body (l1 ++ l2) s = bind (for_each body l1 s) (for_each body l2).
Proof.
  revert s. induction l1 as [|x l1 IH]; intros s; cbn [for_each app].
  - rewrite bind_ret. reflexivity.
  - rewrite bind_assoc. apply bind_ext. intros s'. apply IH.
Qed.

Lemma for_each_skip {A S} (body : A -> S -> M S) (l : list A) (s : S) :
  (forall x s', In x l -> body x s' = ret s') -> for_each body l s = ret s.
Proof.
  induction l as [|x l IH]; intros H; cbn [for_each].
  - reflexivity.
  - rewrite H by (left; reflexivity). rewrite bind_ret.
    apply IH. intros y s' Hy. apply H. right. exact Hy.
Qed.

Lemma for_each_ext {A S} (body body' : A -> S -> M S) (l : list A) (s : S) :
  (forall x s', In x l -> body x s' = body' x s') ->
  for_each body l s = for_each body' l s.
Proof.
  revert s. induction l as [|x l IH]; intros s H; cbn [for_each].
  - reflexivity.
  - rewrite H by (left; reflexivity). apply bind_ext. intros s'.
    apply IH. intros y s'' Hy. apply H. right. exact Hy.
Qed.

Lemma for_each_map {A B S} (g : A -> B) (body : B -> S -> M S) (l : list A) (s : S) :
  for_each body (map g l) s = for_each (fun x => body (g x)) l s.
Proof.
  revert s. induction l as [|x l IH]; intros s; cbn [for_each map].
  - reflexivity.
  - apply bind_ext. exact IH.
Qed.

Lemma for_each_flat_map {A B S} (g : A -> list B) (body : A -> S -> M S)
    (body' : B -> S -> M S) (l : list A) (s : S) :
  (forall x s', In x l -> body x s' = for_each body' (g x) s') ->
  for_each body l s = for_each body' (flat_map g l) s.
Proof.
  revert s. induction l as [|x l IH]; intros s H; cbn [for_each flat_map].
  - reflexivity.
  - rewrite for_each_app, H by (left; reflexivity).
    apply bind_ext. intros s'. apply IH.
    intros y s'' Hy. apply H. right. exact Hy.
Qed.

(** ** Dictionaries *)

Lemma dict_get_set_same (k : string) (v : pyobj) (d : dict) :
  dict_get k (dict_set k v d) = Some v.
Proof.
  induction d as [|[k' v'] d IH]; cbn.
  - rewrite String.eqb_refl. reflexivity.
  - destruct (String.eqb k k') eqn:E; cbn; rewrite E; [reflexivity | exact IH].
Qed.

Lemma dict_get_set_other (k k' : string) (v : pyobj) (d : dict) :
  k' <> k -> dict_get k' (dict_set k v d) = dict_get k' d.
Proof.
  intros Hne. induction d as [|[k0 v0] d IH]; cbn.
  - destruct (String.eqb_spec k' k); [contradiction | reflexivity].
  - destruct (String.eqb_spec k k0) as [-> | Hk]; cbn.
    + destruct (String.eqb_spec k' k0); [contradiction | reflexivity].
    + destruct (String.eqb k' k0); [reflexivity | exact IH].
Qed.

Lemma dict_keys_set (k : string) (v : pyobj) (d : dict) :
  dict_keys (dict_set k v d) =
  match dict_get k d with
  | Some _ => dict_keys d
  | None => dict_keys d ++ [k]
  end.
Proof.
  induction d as [|[k0 v0] d IH]; cbn.
  - reflexivity.
  - destruct (String.eqb_spec k k0) as [-> | Hk]; cbn.
    + reflexivity.
    + unfold dict_keys in IH. rewrite IH. destruct (dict_get k d); reflexivity.
Qed.

Lemma dict_set_set (k : string) (v v' : pyobj) (d : dict) :
  dict_set k v' (dict_set k v d) = dict_set k v' d.
Proof.
  induction d as [|[k0 v0] d IH]; cbn.
  - rewrite String.eqb_refl. reflexivity.
  - destruct (String.eqb k k0) eqn:E; cbn; rewrite E; [reflexivity|].
    rewrite IH. reflexivity.
Qed.

Lemma dict_without_set (k : string) (v : pyobj) (d : dict) :
  dict_without k (dict_set k v d) = dict_without k d.
Proof.
  unfold dict_without.
  induction d as [|[k0 v0] d IH]; cbn.
  - rewrite String.eqb_refl. reflexivity.
  - destruct (String.eqb k k0) eqn:E; cbn; rewrite E; cbn.
    + reflexivity.
    + rewrite IH. reflexivity.
Qed.

(** ** The reference image library meets the contract *)

Lemma shrink_fits (w h bw bh : Z) :
  (0 < w -> 0 < h -> 0 < bw -> 0 < bh ->
   1 <= fst (Reference.shrink w h bw bh) /\
   1 <= snd (Reference.shrink w h bw bh) /\
   fits_within (bw, bh) (w, h) (Reference.shrink w h bw bh))%Z.
Proof.
  intros Hw Hh Hbw Hbh. unfold Reference.shrink, fits_within.
  destruct (Z.leb_spec w bw) as [Hfw | Hfw]; cbn [andb].
  - destruct (Z.leb_spec h bh) as [Hfh | Hfh]; cbn [fst snd].
    + replace (w * h - h * w)%Z with 0%Z by ring. cbn [Z.abs]. lia.
    + destruct (Z.leb_spec (bh * w) (bw * h)) as [Hlim | Hlim]; cbn [fst snd].
      * pose proof (Z.mul_div_le (bh * w) h Hh) as Hlo.
        pose proof (Z.mul_succ_div_gt (bh * w) h Hh) as Hhi.
        assert (0 <= bh * w / h)%Z by (apply Z.div_pos; nia).
        repeat split; nia.
      * nia.
  - destruct (Z.leb_spec (bh * w) (bw * h)) as [Hlim | Hlim]; cbn [fst snd].
    + pose proof (Z.mul_div_le (bh * w) h Hh) as Hlo.
      pose proof (Z.mul_succ_div_gt (bh * w) h Hh) as Hhi.
      assert (0 <= bh * w / h)%Z by (apply Z.div_pos; nia).
      repeat split; nia.
    + pose proof (Z.mul_div_le (bw * h) w Hw) as Hlo.
      pose proof (Z.mul_succ_div_gt (bw * h) w Hw) as Hhi.
      assert (0 <= bw * h / w)%Z by (apply Z.div_pos; nia).
      repeat split; nia.
Qed.

Lemma reference_thumbnail_contract (known : list pyobj) :
  thumbnail_contract (C := Reference.collaborators known).
Proof.
  intros [w h] t' bw bh. cbn. unfold Reference.picture_thumbnail.
  destruct (Z.ltb_spec 0 bw) as [Hbw | Hbw]; [|discriminate].
  destruct (Z.ltb_spec 0 bh) as [Hbh | Hbh]; [|discriminate].
  cbn [andb fst snd].
  pose proof (shrink_fits (Z.pos w) (Z.pos h) bw bh
                (Pos2Z.is_pos w) (Pos2Z.is_pos h) Hbw Hbh) as (H1 & H2 & Hfit).
  destruct (Reference.shrink (Z.pos w) (Z.pos h) bw bh) as [w' h'].
  cbn [fst snd] in H1, H2. intros H. inversion H; subst.
  unfold Reference.picture_size. cbn [fst snd].
  rewrite !Z2Pos.id by lia. exact Hfit.
Qed.

(** ** The metadata extractor *)

Section Metadata.

Context {C : Collaborators}.

Lemma MetadataExtractor_call_disabled (thumbnails : pyobj) (f : stream)
    (name : string) (doc : dict) :
  truthy thumbnails = false ->
  json_loads (read f) = Ok (PDict doc) ->
  MetadataExtractor_call thumbnails f name = ([], Ok (metadata_of doc)).
Proof.
  intros Hth Hdoc. unfold MetadataExtractor_call, JSONExtractor_call.
  rewrite Hdoc, bind_lift_Ok. cbn [py_get]. rewrite bind_lift_Ok, Hth.
  reflexivity.
Qed.

(** With thumbnails enabled, on a document that is a mapping, whose
    metadata is a mapping (or absent) and whose [cells] can be iterated:
    the loop decides the events and the outcome. *)
Lemma MetadataExtractor_call_enabled (thumbnails : pyobj) (f : stream)
    (name : string) (doc meta : dict) (cells : pyobj) (its : list pyobj) :
  truthy thumbnails = true ->
  json_loads (read f) = Ok (PDict doc) ->
  metadata_of doc = PDict meta ->
  dict_get "cells" doc = Some cells ->
  py_iter cells = Ok its ->
  MetadataExtractor_call thumbnails f name =
    (events (for_each (thumb_cell thumbnails) its []),
     match outcome (for_each (thumb_cell thumbnails) its []) with
     | Ok thumbs => Ok (PDict (dict_set "thumbs" (PList (map PStr thumbs)) meta))
     | Raise e => Raise e
     end).
Proof.
  intros Hth Hdoc Hmeta Hcells Hits.
  unfold MetadataExtractor_call, JSONExtractor_call.
  rewrite Hdoc, bind_lift_Ok. cbn [py_get]. fold (metadata_of doc).
  rewrite Hmeta, bind_lift_Ok, Hth. cbn [py_setitem py_getitem].
  rewrite bind_lift_Ok, Hcells, bind_lift_Ok, Hits, bind_lift_Ok.
  destruct (for_each (thumb_cell thumbnails) its []) as [t [thumbs | e]];
    cbn; [|reflexivity].
  rewrite dict_set_set, app_nil_r. reflexivity.
Qed.

(** *** The loops visit the candidates *)

Lemma str_in_image_types (key : string) :
  str_in (lower key) image_types = is_image_key key.
Proof.
  unfold is_image_key, eq_nocase, image_types. cbn. rewrite orb_false_r.
  reflexivity.
Qed.

Lemma thumb_item_candidates (size : pyobj) (item : string * pyobj) (s : list string) :
  thumb_item size item s = for_each (thumb_candidate size) (item_candidates item) s.
Proof.
  destruct item as [key v]. unfold thumb_item, item_candidates. cbn [fst snd].
  rewrite str_in_image_types. destruct (is_image_key key); [|reflexivity].
  rewrite for_each_map. reflexivity.
Qed.

Lemma py_eq_str_output_type (o : dict) :
  py_eq_str (match dict_get "output_type" o with Some v => v | None => PNone end)
    "display_data" = is_display_data (PDict o).
Proof.
  unfold is_display_data. destruct (dict_get "output_type" o) as [[]|]; reflexivity.
Qed.

Lemma thumb_output_candidates (size : pyobj) (out : pyobj) (s : list string) :
  shaped_output out = true ->
  thumb_output size out s = for_each (thumb_candidate size) (output_candidates out) s.
Proof.
  unfold shaped_output, thumb_output, output_candidates.
  destruct out as [| | | | | | | |o]; try discriminate.
  cbn [py_get]. rewrite bind_lift_Ok, py_eq_str_output_type.
  destruct (is_display_data (PDict o)); [|reflexivity].
  unfold data_of. intros H.
  destruct (dict_get "data" o) as [[| | | | | | | |items]|]; try discriminate;
    rewrite bind_lift_Ok; cbn [py_items]; rewrite bind_lift_Ok.
  - apply for_each_flat_map. intros item s' _. apply thumb_item_candidates.
  - reflexivity.
Qed.

Lemma thumb_cell_candidates (size : pyobj) (cell : pyobj) (s : list string) :
  shaped_cell cell = true ->
  thumb_cell size cell s = for_each (thumb_candidate size) (cell_candidates cell) s.
Proof.
  unfold shaped_cell, thumb_cell, cell_candidates, outputs_of.
  destruct cell as [| | | | | | | |c]; try discriminate.
  cbn [py_get]. rewrite bind_lift_Ok.
  destruct (dict_get "outputs" c) as [[| | | | | |outs| |]|]; try discriminate;
    intros H; cbn [py_iter]; rewrite bind_lift_Ok.
  - apply for_each_flat_map. intros out s' Hin.
    apply thumb_output_candidates.
    rewrite forallb_forall in H. apply H. exact Hin.
  - reflexivity.
Qed.

Lemma thumb_cells_candidates (size : pyobj) (cells : list pyobj) (s : list string) :
  forallb shaped_cell cells = true ->
  for_each (thumb_cell size) cells s =
  for_each (thumb_candidate size) (candidates cells) s.
Proof.
  intros H. apply for_each_flat_map. intros cell s' Hin.
  apply thumb_cell_candidates. rewrite forallb_forall in H. apply H. exact Hin.
Qed.

Lemma candidates_app (cs1 cs2 : list pyobj) :
  candidates (cs1 ++ cs2) = candidates cs1 ++ candidates cs2.
Proof. apply flat_map_app. Qed.

Lemma in_candidates (cells : list pyobj) (key : string) (d : pyobj) :
  In (key, d) (candidates cells) <->
  exists cell out v,
    In cell cells /\ In out (outputs_of cell) /\ is_display_data out = true /\
    In (key, v) (data_of out) /\ is_image_key key = true /\ In d (as_list v).
Proof.
  unfold candidates, cell_candidates, output_candidates, item_candidates.
  split.
  - intros H. apply in_flat_map in H. destruct H as (cell & Hcell & H).
    apply in_flat_map in H. destruct H as (out & Hout & H).
    destruct (is_display_data out) eqn:Hdd; [|destruct H].
    apply in_flat_map in H. destruct H as ([k v] & Hitem & H). cbn [fst snd] in H.
    destruct (is_image_key k) eqn:Hk; [|destruct H].
    apply in_map_iff in H. destruct H as (d' & Heq & Hd). inversion Heq; subst.
    exists cell, out, v. repeat split; assumption.
  - intros (cell & out & v & Hcell & Hout & Hdd & Hitem & Hk & Hd).
    apply in_flat_map. exists cell. split; [exact Hcell|].
    apply in_flat_map. exists out. split; [exact Hout|].
    rewrite Hdd. apply in_flat_map. exists (key, v). split; [exact Hitem|].
    cbn [fst snd]. rewrite Hk. apply in_map. exact Hd.
Qed.

Lemma is_image_key_spec (key : string) :
  is_image_key key = true <-> lower key = "image/png" \/ lower key = "image/jpeg".
Proof.
  unfold is_image_key, eq_nocase. cbn [lower]. rewrite orb_true_iff.
  change (lower "image/png") with "image/png".
  change (lower "image/jpeg") with "image/jpeg".
  rewrite !String.eqb_eq. reflexivity.
Qed.

Lemma truthy_not_True (x : pyobj) : truthy x = false -> is_True x = false.
Proof. destruct x as [|[]| | | | | | |]; cbn; intros H; congruence. Qed.

(** What the enabled extractor does until it reaches the loop. *)
Lemma MetadataExtractor_call_returns (thumbnails : pyobj) (f : stream)
    (name : string) (t : list event) (r : pyobj) :
  truthy thumbnails = true ->
  MetadataExtractor_call thumbnails f name = (t, Ok r) ->
  exists doc meta cells its thumbs,
    json_loads (read f) = Ok (PDict doc) /\
    metadata_of doc = PDict meta /\
    dict_get "cells" doc = Some cells /\
    py_iter cells = Ok its /\
    for_each (thumb_cell thumbnails) its [] = (t, Ok thumbs) /\
    r = PDict (dict_set "thumbs" (PList (map PStr thumbs)) meta).
Proof.
  intros Hth. unfold MetadataExtractor_call, JSONExtractor_call.
  destruct (json_loads (read f)) as [nb | e] eqn:Hnb;
    [rewrite bind_lift_Ok | intros H; discriminate H].
  destruct nb as [| | | | | | | |doc]; try (intros H; discriminate H).
  cbn [py_get]. rewrite bind_lift_Ok, Hth. fold (metadata_of doc).
  destruct (metadata_of doc) as [| | | | | | | |meta] eqn:Hmeta;
    try (intros H; discriminate H).
  cbn [py_setitem py_getitem]. rewrite bind_lift_Ok.
  destruct (dict_get "cells" doc) as [cells|] eqn:Hcells;
    [rewrite bind_lift_Ok | intros H; discriminate H].
  destruct (py_iter cells) as [its | e] eqn:Hits;
    [rewrite bind_lift_Ok | intros H; discriminate H].
  destruct (for_each (thumb_cell thumbnails) its []) as [t' [thumbs | e]] eqn:Hloop;
    cbn; [|intros H; discriminate H].
  rewrite dict_set_set, app_nil_r. intros H. inversion H; subst.
  exists doc, meta, cells, its, thumbs. repeat split; try assumption.
Qed.

End Metadata.

(** Claim C3.  On a stream that holds a well-formed JSON notebook (a
    JSON object), the metadata extractor built with thumbnails disabled
    ([thumbnails=False], or any other false value) prints nothing and
    returns exactly the [metadata] field of the document, whatever
    value it is, and the empty mapping when the document has no such
    field. *)
Theorem MetadataExtractor_returns_metadata `{C : Collaborators}
    (name : option string) (thumbnails : pyobj) (f : stream)
    (docname : string) (doc : dict) :
  truthy thumbnails = false ->
  json_loads (read f) = Ok (PDict doc) ->
  call (new_MetadataExtractor name thumbnails) f docname
    = ([], Ok (metadata_of doc))
  /\ (forall meta, dict_get "metadata" doc = Some meta -> metadata_of doc = meta)
  /\ (dict_get "metadata" doc = None -> metadata_of doc = PDict []).
Proof.
  intros Hth Hdoc. split; [|split].
  - unfold new_MetadataExtractor. rewrite (truthy_not_True _ Hth). cbn [call].
    apply MetadataExtractor_call_disabled; assumption.
  - intros meta H. unfold metadata_of. rewrite H. reflexivity.
  - intros H. unfold metadata_of. rewrite H. reflexivity.
Qed.

Lemma MetadataExtractor_returns_metadata_witness :
  call (C := Samples.world) (new_MetadataExtractor None (PBool false))
    (handle_open (Samples.file_of Samples.gallery)) "gallery"
  = ([], Ok (PDict [("title", PStr "gallery")])).
Proof.
  apply (MetadataExtractor_returns_metadata (C := Samples.world) None (PBool false)
           (handle_open (Samples.file_of Samples.gallery)) "gallery" Samples.gallery);
    reflexivity.
Defined.

(** Claim C9.  With thumbnail generation enabled, whenever the metadata
    extractor returns, the document is a mapping, its metadata [meta] is
    a mapping (the empty one when the field is absent), and the value
    returned is [meta] with the key [thumbs] set to the list that the
    loop over the cells built starting from the empty list: the key
    holds that list whatever [meta] held under it before, every other
    key holds what it held in [meta], and the other entries are the same
    in the same order.  When the cells follow the data model and hold no
    candidate payload, that list is empty and nothing is printed. *)
Theorem MetadataExtractor_sets_thumbs `{C : Collaborators}
    (n : string) (thumbnails : pyobj) (f : stream) (docname : string)
    (t : list event) (r : pyobj) :
  truthy thumbnails = true ->
  call (MetadataExtractor n thumbnails) f docname = (t, Ok r) ->
  exists (doc meta : dict) (cells : pyobj) (its : list pyobj) (thumbs : list string),
    json_loads (read f) = Ok (PDict doc) /\
    metadata_of doc = PDict meta /\
    dict_get "cells" doc = Some cells /\ py_iter cells = Ok its /\
    for_each (thumb_cell thumbnails) its [] = (t, Ok thumbs) /\
    r = PDict (dict_set "thumbs" (PList (map PStr thumbs)) meta) /\
    dict_get "thumbs" (dict_set "thumbs" (PList (map PStr thumbs)) meta)
      = Some (PList (map PStr thumbs)) /\
    (forall k, k <> "thumbs" ->
       dict_get k (dict_set "thumbs" (PList (map PStr thumbs)) meta) = dict_get k meta) /\
    dict_without "thumbs" (dict_set "thumbs" (PList (map PStr thumbs)) meta)
      = dict_without "thumbs" meta /\
    (forallb shaped_cell its = true -> candidates its = [] -> thumbs = [] /\ t = []).
Proof.
  intros Hth Hcall. cbn [call] in Hcall.
  destruct (MetadataExtractor_call_returns _ _ _ _ _ Hth Hcall)
    as (doc & meta & cells & its & thumbs & Hdoc & Hmeta & Hcells & Hits & Hloop & Hr).
  exists doc, meta, cells, its, thumbs.
  repeat (split; [assumption|]).
  split; [apply dict_get_set_same|].
  split; [intros k Hk; apply dict_get_set_other; exact Hk|].
  split; [apply dict_without_set|].
  intros Hshape Hnone.
  rewrite (thumb_cells_candidates _ _ _ Hshape), Hnone in Hloop.
  cbn in Hloop. inversion Hloop. split; reflexivity.
Qed.

Lemma MetadataExtractor_sets_thumbs_witness :
  exists (doc meta : dict) (cells : pyobj) (its : list pyobj) (thumbs : list string),
    json_loads (Collaborators := Samples.world)
      (read (handle_open (Samples.file_of Samples.plain))) = Ok (PDict doc) /\
    metadata_of doc = PDict meta /\
    dict_get "cells" doc = Some cells /\ py_iter cells = Ok its /\
    for_each (thumb_cell (C := Samples.world) default_size) its [] = ([], Ok thumbs) /\
    PDict [("kernelspec", PDict [("name", PStr "python3")]); ("thumbs", PList []);
           ("title", PStr "demo")]
      = PDict (dict_set "thumbs" (PList (map PStr thumbs)) meta) /\
    dict_get "thumbs" (dict_set "thumbs" (PList (map PStr thumbs)) meta)
      = Some (PList (map PStr thumbs)) /\
    (forall k, k <> "thumbs" ->
       dict_get k (dict_set "thumbs" (PList (map PStr thumbs)) meta) = dict_get k meta) /\
    dict_without "thumbs" (dict_set "thumbs" (PList (map PStr thumbs)) meta)
      = dict_without "thumbs" meta /\
    (forallb shaped_cell its = true -> candidates its = [] -> thumbs = [] /\ @nil event = []).
Proof.
  apply (MetadataExtractor_sets_thumbs (C := Samples.world) "m" default_size
           (handle_open (Samples.file_of Samples.plain)) "plain");
    reflexivity.
Defined.

(** The document [{"metadata": null, "nbformat": 4}] is well-formed JSON
    and has no [cells] key; with thumbnails enabled the extractor
    raises [TypeError] on it (at [meta['thumbs'] = []], before [cells]
    is read), which is not a lookup error. *)
Lemma missing_cells_without_lookup_error :
  json_loads (Collaborators := Samples.world)
    (read (handle_open (Samples.file_of Samples.null_metadata)))
    = Ok (PDict Samples.null_metadata) /\
  dict_get "cells" Samples.null_metadata = None /\
  call (C := Samples.world) (new_MetadataExtractor None (PBool true))
    (handle_open (Samples.file_of Samples.null_metadata)) "nb"
    = ([], Raise TypeError) /\
  isinstance_LookupError TypeError = false.
Proof. repeat split. Qed.

(** Claim C10, amended.  With thumbnail generation enabled, [cells] is
    read without a guard, after the metadata has been fetched and
    [thumbs] stored in it.  On a well-formed JSON document without a
    [cells] key the extractor never returns the metadata: it raises
    [KeyError('cells')] when the document is an object whose metadata
    is a mapping or absent, [TypeError] when the document is an object
    whose metadata is not a mapping, and [AttributeError] when the
    document is not an object.  A cell without [outputs], an output
    without [output_type] and an output without [data] are tolerated:
    they leave the list of thumbnails as it is and print nothing. *)
Theorem MetadataExtractor_missing_cells `{C : Collaborators}
    (n : string) (thumbnails : pyobj) (f : stream) (docname : string) (nb : pyobj) :
  truthy thumbnails = true ->
  json_loads (read f) = Ok nb ->
  (forall doc, nb = PDict doc -> dict_get "cells" doc = None) ->
  call (MetadataExtractor n thumbnails) f docname
    = ([], Raise (match nb with
                  | PDict doc =>
                      match metadata_of doc with
                      | PDict _ => KeyError "cells"
                      | _ => TypeError
                      end
                  | _ => AttributeError
                  end))
  /\ (forall size c thumbs,
        dict_get "outputs" c = None ->
        thumb_cell size (PDict c) thumbs = ([], Ok thumbs))
  /\ (forall size o thumbs,
        dict_get "output_type" o = None ->
        thumb_output size (PDict o) thumbs = ([], Ok thumbs))
  /\ (forall size o thumbs,
        dict_get "data" o = None ->
        thumb_output size (PDict o) thumbs = ([], Ok thumbs)).
Proof.
  intros Hth Hnb Hcells. split; [|split; [|split]].
  - cbn [call]. unfold MetadataExtractor_call, JSONExtractor_call.
    rewrite Hnb, bind_lift_Ok.
    destruct nb as [| | | | | | | |doc]; try reflexivity.
    cbn [py_get]. rewrite bind_lift_Ok, Hth. fold (metadata_of doc).
    destruct (metadata_of doc) as [| | | | | | | |meta]; try reflexivity.
    cbn [py_setitem py_getitem]. rewrite bind_lift_Ok.
    rewrite (Hcells doc eq_refl). reflexivity.
  - intros size c thumbs H. unfold thumb_cell. cbn [py_get]. rewrite H.
    reflexivity.
  - intros size o thumbs H. unfold thumb_output. cbn [py_get]. rewrite H.
    reflexivity.
  - intros size o thumbs H. unfold thumb_output. cbn [py_get]. rewrite H.
    rewrite bind_lift_Ok.
    destruct (py_eq_str _ "display_data"); reflexivity.
Qed.

Lemma MetadataExtractor_missing_cells_witness :
  call (C := Samples.world) (MetadataExtractor "m" default_size)
    (handle_open (Samples.file_of Samples.no_cells)) "nb"
    = ([], Raise (KeyError "cells"))
  /\ thumb_cell (C := Samples.world) default_size
       (PDict [("cell_type", PStr "markdown")]) ["t"] = ([], Ok ["t"])
  /\ thumb_output (C := Samples.world) default_size
       (PDict [("data", PDict [("image/png", Samples.payload 9 9)])]) ["t"]
     = ([], Ok ["t"])
  /\ thumb_output (C := Samples.world) default_size
       (PDict [("output_type", PStr "display_data")]) ["t"] = ([], Ok ["t"]).
Proof.
  destruct (MetadataExtractor_missing_cells (C := Samples.world) "m" default_size
              (handle_open (Samples.file_of Samples.no_cells)) "nb"
              (PDict Samples.no_cells) eq_refl eq_refl)
    as (H1 & H2 & H3 & H4).
  - intros doc H. inversion H. reflexivity.
  - split; [exact H1|]. split; [apply H2; reflexivity|].
    split; [apply H3; reflexivity | apply H4; reflexivity].
Defined.

Lemma thumb_payload_decoded `{C : Collaborators} (size : pyobj) (key : string)
    (d : pyobj) (thumbs : list string) (t t' : image) (png : bytes) :
  decode_image d = Ok t ->
  Image_thumbnail t size = Ok t' ->
  Image_save_png t' = Ok png ->
  thumb_payload size key d thumbs = ([], Ok (thumbs ++ [data_uri png])).
Proof.
  intros Hd Ht Hs. unfold thumb_payload.
  rewrite Hd, Ht, bind_lift_Ok, Hs, bind_lift_Ok. reflexivity.
Qed.

(** Claim C5.  Let the extractor be built with a true value [v] for
    [thumbnails], and let [size] be the attribute it stores: it is
    [(200, 200)] when [v] is [True] and [v] itself otherwise.  For a
    payload that decodes to an image [t], the extractor calls the
    image library's [thumbnail] on [t] with [size], saves the result as
    PNG, and appends ['data:image/png;base64,'] followed by the base64
    text of the PNG bytes to the list; when it is the last candidate of
    the document, the list returned under [thumbs] ends with it.  By the
    contract of the image library, the image saved fits in the box
    [size], is not larger than [t] and keeps its proportions. *)
Theorem thumbnail_appended `{C : Collaborators}
    (name : option string) (v : pyobj) (n : string) (size : pyobj)
    (f : stream) (docname : string) (doc meta : dict) (cells : list pyobj)
    (pre : list (string * pyobj)) (key : string) (d : pyobj)
    (t0 : list event) (ths : list string) (t t' : image) (png : bytes) :
  thumbnail_contract ->
  truthy v = true ->
  new_MetadataExtractor name v = MetadataExtractor n size ->
  json_loads (read f) = Ok (PDict doc) ->
  metadata_of doc = PDict meta ->
  dict_get "cells" doc = Some (PList cells) ->
  forallb shaped_cell cells = true ->
  candidates cells = pre ++ [(key, d)] ->
  for_each (thumb_candidate size) pre [] = (t0, Ok ths) ->
  decode_image d = Ok t ->
  Image_thumbnail t size = Ok t' ->
  Image_save_png t' = Ok png ->
  thumb_payload size key d ths
    = ([], Ok (ths ++ [("data:image/png;base64," ++ b64encode png)%string]))
  /\ call (new_MetadataExtractor name v) f docname
    = (t0, Ok (PDict (dict_set "thumbs"
                        (PList (map PStr
                           (ths ++ [("data:image/png;base64," ++ b64encode png)%string])))
                        meta)))
  /\ (forall bw bh, size = PTuple [PInt bw; PInt bh] ->
        fits_within (bw, bh) (image_size t) (image_size t'))
  /\ (v = PBool true -> size = PTuple [PInt 200; PInt 200])
  /\ (v <> PBool true -> size = v)
  /\ n = Extractor_init CMetadataExtractor name.
Proof.
  intros Hcontract Hv Hnew Hdoc Hmeta Hcells Hshape Hcand Hpre Hd Ht Hs.
  pose proof (thumb_payload_decoded size key d ths t t' png Hd Ht Hs) as Hpay.
  unfold data_uri in Hpay.
  unfold new_MetadataExtractor in Hnew. injection Hnew as Hn Hsize.
  assert (Hsz : truthy size = true).
  { rewrite <- Hsize. destruct (is_True v); [reflexivity | exact Hv]. }
  split; [exact Hpay|]. split; [|split; [|split; [|split]]].
  - unfold new_MetadataExtractor. rewrite Hsize. cbn [call].
    rewrite (MetadataExtractor_call_enabled size f docname doc meta (PList cells) cells
               Hsz Hdoc Hmeta Hcells eq_refl).
    assert (Hloop : for_each (thumb_candidate size) (pre ++ [(key, d)]) []
                    = (t0, Ok (ths ++ [("data:image/png;base64," ++ b64encode png)%string]))).
    { rewrite for_each_app, Hpre. cbn [for_each].
      change (thumb_candidate size (key, d)) with (thumb_payload size key d).
      unfold bind at 1. rewrite Hpay. cbn. rewrite !app_nil_r. reflexivity. }
    rewrite (thumb_cells_candidates _ _ _ Hshape), Hcand, Hloop. reflexivity.
  - intros bw bh Hbox. subst size. rewrite Hbox in Ht. apply (Hcontract _ _ _ _ Ht).
  - intros Htrue. subst v. symmetry. exact Hsize.
  - intros Hne. rewrite <- Hsize.
    destruct v as [|[]| | | | | | |]; try reflexivity.
    contradiction Hne. reflexivity.
  - symmetry. exact Hn.
Qed.

Lemma thumbnail_appended_witness :
  call (C := Samples.world) (new_MetadataExtractor None (PBool true))
    (handle_open (Samples.file_of Samples.one_picture)) "one"
    = ([], Ok (PDict [("title", PStr "one");
                      ("thumbs", PList [PStr "data:image/png;base64,SchQ"])]))
  /\ fits_within (200, 200)%Z (250, 100)%Z (200, 80)%Z.
Proof.
  destruct (thumbnail_appended (C := Samples.world) None (PBool true)
              "MetadataExtractor" default_size
              (handle_open (Samples.file_of Samples.one_picture)) "one"
              Samples.one_picture [("title", PStr "one")]
              [Samples.code_cell [Samples.display "image/png" (Samples.payload 250 100)]]
              [] "image/png" (Samples.payload 250 100) [] []
              (250%positive, 100%positive) (200%positive, 80%positive)
              [x49; xc8; x50]
              (reference_thumbnail_contract Samples.known)
              eq_refl eq_refl eq_refl eq_refl eq_refl eq_refl eq_refl eq_refl
              eq_refl eq_refl eq_refl)
    as (_ & Hcall & Hfit & _).
  split; [exact Hcall | exact (Hfit 200%Z 200%Z eq_refl)].
Defined.

(** Claim C4.  With thumbnails enabled, on a notebook whose cells follow
    the data model, the extractor does to the list of thumbnails what
    processing the candidate payloads one after the other does, and
    nothing else.  The candidates are exactly the payloads found in an
    output of a cell whose [output_type] is ['display_data'], under a key
    of its [data] whose lower case is [image/png] or [image/jpeg]; a
    value that is not a list counts as the list of that one value, so a
    single string and the one-element list holding it give the same
    candidates; the candidates come in the order of the cells, then of
    the outputs of a cell. *)
Theorem candidates_considered `{C : Collaborators}
    (n : string) (thumbnails : pyobj) (f : stream) (docname : string)
    (doc meta : dict) (cells : list pyobj) :
  truthy thumbnails = true ->
  json_loads (read f) = Ok (PDict doc) ->
  metadata_of doc = PDict meta ->
  dict_get "cells" doc = Some (PList cells) ->
  forallb shaped_cell cells = true ->
  call (MetadataExtractor n thumbnails) f docname
    = (events (for_each (thumb_candidate thumbnails) (candidates cells) []),
       match outcome (for_each (thumb_candidate thumbnails) (candidates cells) []) with
       | Ok thumbs => Ok (PDict (dict_set "thumbs" (PList (map PStr thumbs)) meta))
       | Raise e => Raise e
       end)
  /\ (forall key d,
        In (key, d) (candidates cells) <->
        exists cell out v,
          In cell cells /\ In out (outputs_of cell) /\ is_display_data out = true /\
          In (key, v) (data_of out) /\
          (lower key = "image/png" \/ lower key = "image/jpeg") /\
          In d (as_list v))
  /\ (forall key s, item_candidates (key, PStr s) = item_candidates (key, PList [PStr s]))
  /\ (forall cs1 cs2, cells = cs1 ++ cs2 ->
        candidates cells = candidates cs1 ++ candidates cs2)
  /\ (forall cell, In cell cells ->
        forall outs1 outs2, outputs_of cell = outs1 ++ outs2 ->
        cell_candidates cell
          = flat_map output_candidates outs1 ++ flat_map output_candidates outs2).
Proof.
  intros Hth Hdoc Hmeta Hcells Hshape. split; [|split; [|split; [|split]]].
  - cbn [call].
    rewrite (MetadataExtractor_call_enabled thumbnails f docname doc meta
               (PList cells) cells Hth Hdoc Hmeta Hcells eq_refl).
    rewrite (thumb_cells_candidates _ _ _ Hshape). reflexivity.
  - intros key d. rewrite in_candidates.
    split; intros (cell & out & v & H1 & H2 & H3 & H4 & H5 & H6);
      exists cell, out, v; repeat (split; [assumption|]);
      (split; [apply is_image_key_spec; exact H5 | exact H6]).
  - reflexivity.
  - intros cs1 cs2 ->. apply candidates_app.
  - intros cell _ outs1 outs2 H. unfold cell_candidates. rewrite H.
    apply flat_map_app.
Qed.

Lemma candidates_considered_witness :
  call (C := Samples.world) (MetadataExtractor "m" (PTuple [PInt 50; PInt 50]))
    (handle_open (Samples.file_of Samples.gallery)) "gallery"
    = ([], Ok (PDict [("title", PStr "gallery");
                      ("thumbs", PList [PStr "data:image/png;base64,STIU";
                                        PStr "data:image/png;base64,SQoU";
                                        PStr "data:image/png;base64,SRQy";
                                        PStr "data:image/png;base64,SSge"])]))
  /\ In ("IMAGE/JPEG", Samples.payload 40 30)
       (candidates (Samples.cells_of Samples.gallery)).
Proof.
  destruct (candidates_considered (C := Samples.world) "m" (PTuple [PInt 50; PInt 50])
              (handle_open (Samples.file_of Samples.gallery)) "gallery"
              Samples.gallery [("title", PStr "gallery")]
              (Samples.cells_of Samples.gallery)
              eq_refl eq_refl eq_refl eq_refl eq_refl)
    as (Hcall & Hin & _).
  split; [exact Hcall|].
  apply Hin.
  exists (Samples.code_cell
            [PDict [("output_type", PStr "stream");
                    ("data", PDict [("image/png", Samples.payload 9 9)])];
             Samples.display "Image/PNG"
               (PList [Samples.payload 250 100; Samples.payload 10 20;
                       Samples.payload 100 250]);
             Samples.display "IMAGE/JPEG" (Samples.payload 40 30)]),
         (Samples.display "IMAGE/JPEG" (Samples.payload 40 30)),
         (Samples.payload 40 30).
  cbn. repeat split; auto.
Defined.

Lemma thumb_payload_caught `{C : Collaborators} (size : pyobj) (key : string)
    (d : pyobj) (thumbs : list string) (e : exn) :
  decode_image d = Raise e ->
  isinstance_RuntimeError e = true ->
  thumb_payload size key d thumbs
    = ([Printed ("Can't decode image of type: " ++ key ++ ".")], Ok thumbs).
Proof. intros Hd He. unfold thumb_payload. rewrite Hd, He. reflexivity. Qed.

Lemma thumb_payload_uncaught `{C : Collaborators} (size : pyobj) (key : string)
    (d : pyobj) (thumbs : list string) (e : exn) :
  decode_image d = Raise e ->
  isinstance_RuntimeError e = false ->
  thumb_payload size key d thumbs = ([], Raise e).
Proof. intros Hd He. unfold thumb_payload. rewrite Hd, He. reflexivity. Qed.

(** Claim C1, as the code behaves.  The handler around the decoding is
    [except RuntimeError].  When the decoding of a candidate payload
    raises an exception that is not a [RuntimeError] (the errors of
    [base64.b64decode] and of [Image.open] on corrupt input are
    [binascii.Error], a [ValueError], and [UnidentifiedImageError], an
    [OSError]), the payload is not skipped: the exception leaves the
    extractor, no metadata is returned, the thumbnails made before are
    lost and the payloads that follow are never processed.  Only a
    [RuntimeError] is skipped with the diagnostic. *)
Theorem decode_failure_not_recovered `{C : Collaborators}
    (n : string) (thumbnails : pyobj) (f : stream) (docname : string)
    (doc meta : dict) (cells : list pyobj)
    (pre post : list (string * pyobj)) (key : string) (d : pyobj)
    (t0 : list event) (ths : list string) (e : exn) :
  truthy thumbnails = true ->
  json_loads (read f) = Ok (PDict doc) ->
  metadata_of doc = PDict meta ->
  dict_get "cells" doc = Some (PList cells) ->
  forallb shaped_cell cells = true ->
  candidates cells = pre ++ (key, d) :: post ->
  for_each (thumb_candidate thumbnails) pre [] = (t0, Ok ths) ->
  decode_image d = Raise e ->
  isinstance_RuntimeError e = false ->
  call (MetadataExtractor n thumbnails) f docname = (t0, Raise e)
  /\ (forall key' d' thumbs e',
        decode_image d' = Raise e' ->
        isinstance_RuntimeError e' = true ->
        thumb_payload thumbnails key' d' thumbs
          = ([Printed ("Can't decode image of type: " ++ key' ++ ".")], Ok thumbs)).
Proof.
  intros Hth Hdoc Hmeta Hcells Hshape Hcand Hpre Hd He. split.
  - cbn [call].
    rewrite (MetadataExtractor_call_enabled thumbnails f docname doc meta
               (PList cells) cells Hth Hdoc Hmeta Hcells eq_refl).
    assert (Hloop : for_each (thumb_candidate thumbnails) (pre ++ (key, d) :: post) []
                    = (t0, Raise e)).
    { rewrite for_each_app, Hpre. cbn [for_each].
      change (thumb_candidate thumbnails (key, d)) with (thumb_payload thumbnails key d).
      unfold bind at 1. rewrite (thumb_payload_uncaught _ _ _ _ _ Hd He). cbn.
      rewrite app_nil_r. reflexivity. }
    rewrite (thumb_cells_candidates _ _ _ Hshape), Hcand, Hloop. reflexivity.
  - intros key' d' thumbs e' Hd' He'.
    apply (thumb_payload_caught _ _ _ _ e'); assumption.
Qed.

Lemma decode_failure_not_recovered_witness :
  call (C := Samples.world) (new_MetadataExtractor None (PBool true))
    (handle_open (Samples.file_of Samples.corrupt_then_valid)) "nb"
    = ([], Raise binascii_Error).
Proof.
  refine (proj1 (decode_failure_not_recovered (C := Samples.world)
           "MetadataExtractor" default_size
           (handle_open (Samples.file_of Samples.corrupt_then_valid)) "nb"
           Samples.corrupt_then_valid Samples.kernel
           [Samples.code_cell [Samples.display "image/jpeg" (PStr "abc")];
            Samples.code_cell [Samples.display "image/png" (Samples.payload 250 100)]]
           [] [("image/png", Samples.payload 250 100)] "image/jpeg" (PStr "abc")
           [] [] binascii_Error _ _ _ _ _ _ _ _ _));
    reflexivity.
Defined.

(** ** The generator *)

Section Driver.

Context {C : Collaborators}.

Lemma run_extractor_eq (nb : handle) (name : string) (e : extractor) (d : dict) :
  run_extractor nb name e d =
    (extractor_trace (nb, name) e,
     match outcome (call e (handle_open nb) name) with
     | Ok v => Ok (dict_set (ext_name e) v d)
     | Raise x => Raise x
     end).
Proof.
  unfold run_extractor, with_open, extractor_trace. cbn [fst snd].
  destruct (call e (handle_open nb) name) as [t [v | x]]; cbn.
  - rewrite app_nil_r. reflexivity.
  - reflexivity.
Qed.

Lemma extractors_succeed (es : list extractor) (doc : document) (d : dict) :
  (forall e, In e es -> succeeds e doc) ->
  for_each (run_extractor (fst doc) (snd doc)) es d
    = (record_trace es doc, Ok (results_into d es doc)).
Proof.
  destruct doc as [nb name]. cbn [fst snd]. revert d.
  induction es as [|e es IH]; intros d H; cbn [for_each].
  - reflexivity.
  - rewrite run_extractor_eq.
    destruct (H e (or_introl eq_refl)) as [v Hv]. cbn [fst snd] in Hv.
    rewrite Hv, bind_Ok, IH by (intros e' He'; apply H; right; exact He').
    unfold results_into, result_of, record_trace. cbn [fold_left flat_map fst snd events outcome].
    rewrite Hv. reflexivity.
Qed.

Lemma extractors_fail (es1 es2 : list extractor) (e : extractor) (doc : document)
    (d : dict) (x : exn) :
  (forall e', In e' es1 -> succeeds e' doc) ->
  outcome (call e (handle_open (fst doc)) (snd doc)) = Raise x ->
  for_each (run_extractor (fst doc) (snd doc)) (es1 ++ e :: es2) d
    = (record_trace es1 doc ++ extractor_trace doc e, Raise x).
Proof.
  intros H1 Hx. rewrite for_each_app, (extractors_succeed es1 doc d H1).
  rewrite bind_Ok. cbn [for_each]. destruct doc as [nb name].
  rewrite run_extractor_eq. cbn [fst snd] in Hx |- *. rewrite Hx.
  reflexivity.
Qed.

Lemma build_record_succeeds (es : list extractor) (doc : document) :
  (forall e, In e es -> succeeds e doc) ->
  build_record es doc = (record_trace es doc, Ok (record_of es doc)).
Proof.
  intros H. unfold build_record. destruct doc as [nb name].
  pose proof (extractors_succeed es (nb, name) [] H) as E.
  cbn [fst snd] in E. rewrite E. cbn.
  rewrite app_nil_r. reflexivity.
Qed.

Lemma build_record_fails (es1 es2 : list extractor) (e : extractor) (doc : document)
    (x : exn) :
  (forall e', In e' es1 -> succeeds e' doc) ->
  outcome (call e (handle_open (fst doc)) (snd doc)) = Raise x ->
  build_record (es1 ++ e :: es2) doc
    = (record_trace es1 doc ++ extractor_trace doc e, Raise x).
Proof.
  intros H1 Hx. unfold build_record. destruct doc as [nb name].
  pose proof (extractors_fail es1 es2 e (nb, name) [] x H1 Hx) as E.
  cbn [fst snd] in E. rewrite E. reflexivity.
Qed.

(** The consumer on a prefix of documents that all succeed. *)
Lemma consume_prefix (es : list extractor) (pre rest : list document) (k : nat) :
  (forall doc e, In doc pre -> In e es -> succeeds e doc) ->
  consume (List.length pre + k) (Suspended (pre ++ rest) es) =
    (let '(t, ds, ending) := consume k (Suspended rest es) in
     (flat_map (record_trace es) pre ++ t, map (record_of es) pre ++ ds, ending)).
Proof.
  induction pre as [|doc pre IH]; intros H.
  - cbn. destruct (consume k (Suspended rest es)) as [[t ds] ending]. reflexivity.
  - cbn [List.length Nat.add app consume next].
    rewrite build_record_succeeds by (intros e He; apply H; [left; reflexivity | exact He]).
    rewrite IH by (intros d e Hd He; apply H; [right; exact Hd | exact He]).
    destruct (consume k (Suspended rest es)) as [[t ds] ending].
    cbn [flat_map map]. rewrite <- app_assoc. reflexivity.
Qed.

Lemma in_dict_keys_set (k k' : string) (v : pyobj) (d : dict) :
  In k (dict_keys (dict_set k' v d)) <-> k = k' \/ In k (dict_keys d).
Proof.
  rewrite dict_keys_set. destruct (dict_get k' d) eqn:E.
  - split; [intros H; right; exact H|]. intros [-> | H]; [|exact H].
    clear - E. induction d as [|[k0 v0] d IH]; [discriminate|].
    cbn in E |- *. destruct (String.eqb_spec k' k0) as [-> | Hne].
    + left. reflexivity.
    + right. apply IH. exact E.
  - rewrite in_app_iff. cbn. split.
    + intros [H | [H | []]]; [right; exact H | left; symmetry; exact H].
    + intros [-> | H]; [right; left; reflexivity | left; exact H].
Qed.

Lemma results_into_app (d : dict) (es1 es2 : list extractor) (doc : document) :
  results_into d (es1 ++ es2) doc = results_into (results_into d es1 doc) es2 doc.
Proof. apply fold_left_app. Qed.

Lemma results_into_get_other (k : string) (d : dict) (es : list extractor)
    (doc : document) :
  (forall e, In e es -> ext_name e <> k) ->
  dict_get k (results_into d es doc) = dict_get k d.
Proof.
  revert d. induction es as [|e es IH]; intros d H; cbn.
  - reflexivity.
  - unfold results_into in IH. rewrite IH by (intros e' He'; apply H; right; exact He').
    apply dict_get_set_other. intros Heq. apply (H e (or_introl eq_refl)).
    symmetry. exact Heq.
Qed.

Lemma results_into_get (d : dict) (es1 es2 : list extractor) (e : extractor)
    (doc : document) :
  (forall e', In e' es2 -> ext_name e' <> ext_name e) ->
  dict_get (ext_name e) (results_into d (es1 ++ e :: es2) doc)
    = Some (result_of e doc).
Proof.
  intros H. rewrite results_into_app.
  change (results_into (results_into d es1 doc) (e :: es2) doc)
    with (results_into (dict_set (ext_name e) (result_of e doc) (results_into d es1 doc))
            es2 doc).
  rewrite results_into_get_other by exact H. apply dict_get_set_same.
Qed.

Lemma results_into_keys (k : string) (d : dict) (es : list extractor)
    (doc : document) :
  In k (dict_keys (results_into d es doc)) <->
  In k (dict_keys d) \/ exists e, In e es /\ ext_name e = k.
Proof.
  revert d. induction es as [|e es IH]; intros d; cbn.
  - split; [intros H; left; exact H|]. intros [H | (e & [] & _)]. exact H.
  - unfold results_into in IH. rewrite IH, in_dict_keys_set. split.
    + intros [[-> | H] | (e' & He' & Hk)].
      * right. exists e. split; [left|]; reflexivity.
      * left. exact H.
      * right. exists e'. split; [right; exact He' | exact Hk].
    + intros [H | (e' & [-> | He'] & Hk)].
      * left. right. exact H.
      * left. left. symmetry. exact Hk.
      * right. exists e'. split; assumption.
Qed.

End Driver.

(** Claim C2.  When no extractor raises on any document of the reader,
    [list(extract(reader, extractors))] ends with [StopIteration] after
    exactly one record per pair, in the order of the reader.  The
    record of a pair holds the document's name under ['name'], whatever
    the extractors are called; its keys are ['name'] and the names of
    the extractors; and under the name of an extractor (other than
    ['name'], and not used again by a later extractor) it holds what
    that extractor returns on a stream freshly opened at the start of
    the document.  Every extractor call is preceded by an [open()] of
    its own and followed by the matching close. *)
Theorem extract_one_record_per_document `{C : Collaborators}
    (reader : list document) (extractors : list extractor) :
  (forall doc e, In doc reader -> In e extractors -> succeeds e doc) ->
  py_list (extract reader extractors)
    = (flat_map (record_trace extractors) reader,
       map (record_of extractors) reader,
       Exhausted)
  /\ List.length (map (record_of extractors) reader) = List.length reader
  /\ (forall i doc, nth_error reader i = Some doc ->
        nth_error (map (record_of extractors) reader) i
          = Some (record_of extractors doc))
  /\ (forall doc, In doc reader ->
        dict_get "name" (record_of extractors doc) = Some (PStr (snd doc))
        /\ (forall k, In k (dict_keys (record_of extractors doc)) <->
                      k = "name" \/ exists e, In e extractors /\ ext_name e = k)
        /\ (forall es1 e es2,
              extractors = es1 ++ e :: es2 ->
              ext_name e <> "name" ->
              (forall e', In e' es2 -> ext_name e' <> ext_name e) ->
              dict_get (ext_name e) (record_of extractors doc) = Some (result_of e doc)
              /\ outcome (call e (handle_open (fst doc)) (snd doc))
                   = Ok (result_of e doc)
              /\ read (handle_open (fst doc)) = content (fst doc))).
Proof.
  intros H. split; [|split; [|split]].
  - unfold py_list, extract. cbn [remaining].
    rewrite <- (app_nil_r reader) at 2.
    replace (S (List.length reader)) with (List.length reader + 1) by lia.
    rewrite consume_prefix by exact H.
    cbn. rewrite !app_nil_r. reflexivity.
  - apply length_map.
  - intros i doc Hi. apply map_nth_error. exact Hi.
  - intros doc Hdoc. split; [|split].
    + apply dict_get_set_same.
    + intros k. unfold record_of. rewrite in_dict_keys_set, results_into_keys.
      cbn [dict_keys map In]. tauto.
    + intros es1 e es2 Hes Hname Hlast. split; [|split].
      * unfold record_of. rewrite dict_get_set_other by exact Hname.
        rewrite Hes. apply results_into_get. exact Hlast.
      * assert (He : In e extractors) by (rewrite Hes; apply in_elt).
        destruct (H doc e Hdoc He) as [v Hv]. unfold result_of. rewrite Hv.
        reflexivity.
      * reflexivity.
Qed.

Lemma extract_one_record_per_document_witness :
  snd (py_list (C := Samples.world)
         (extract Samples.two_documents [new_BlobExtractor None])) = Exhausted
  /\ map dict_keys
       (map (record_of (C := Samples.world) [new_BlobExtractor None])
          Samples.two_documents)
     = [["BlobExtractor"; "name"]; ["BlobExtractor"; "name"]]
  /\ map (dict_get "name")
       (map (record_of (C := Samples.world) [new_BlobExtractor None])
          Samples.two_documents)
     = [Some (PStr "a"); Some (PStr "b")].
Proof.
  destruct (extract_one_record_per_document (C := Samples.world)
              Samples.two_documents [new_BlobExtractor None]) as (Hlist & _).
  - intros doc e Hdoc [<- | []].
    destruct Hdoc as [<- | [<- | []]]; eexists; reflexivity.
  - rewrite Hlist. repeat split.
Defined.

Lemma next_fails `{C : Collaborators} (es1 es2 : list extractor) (e : extractor)
    (doc : document) (post : list document) (x : exn) :
  (forall e', In e' es1 -> succeeds e' doc) ->
  outcome (call e (handle_open (fst doc)) (snd doc)) = Raise x ->
  next (Suspended (doc :: post) (es1 ++ e :: es2))
    = (record_trace es1 doc ++ extractor_trace doc e, Raised x, Finished).
Proof.
  intros H1 Hx. cbn [next]. rewrite (build_record_fails es1 es2 e doc x H1 Hx).
  reflexivity.
Qed.

(** Claim C6.  Let the documents before [doc] be processed without an
    exception, and on [doc] let the extractors before [e] return and [e]
    raise [x].  Then the request for the record of [doc] raises [x]
    after the events of the extractors that ran, the generator is
    finished (any further request gets [StopIteration]), and a consumer
    that asks for everything receives the records of the documents
    before [doc] and then [x]: no record for [doc], not even one with
    the results of the extractors that returned, and none for the
    documents after it. *)
Theorem extract_no_recovery `{C : Collaborators}
    (pre post : list document) (doc : document)
    (es1 es2 : list extractor) (e : extractor) (x : exn) :
  (forall d e', In d pre -> In e' (es1 ++ e :: es2) -> succeeds e' d) ->
  (forall e', In e' es1 -> succeeds e' doc) ->
  outcome (call e (handle_open (fst doc)) (snd doc)) = Raise x ->
  next (Suspended (doc :: post) (es1 ++ e :: es2))
    = (record_trace es1 doc ++ extractor_trace doc e, Raised x, Finished)
  /\ next Finished = ([], StopIteration, Finished)
  /\ (forall k,
        consume (List.length pre + S k) (extract (pre ++ doc :: post) (es1 ++ e :: es2))
          = (flat_map (record_trace (es1 ++ e :: es2)) pre
               ++ record_trace es1 doc ++ extractor_trace doc e,
             map (record_of (es1 ++ e :: es2)) pre,
             Failed x))
  /\ py_list (extract (pre ++ doc :: post) (es1 ++ e :: es2))
       = (flat_map (record_trace (es1 ++ e :: es2)) pre
            ++ record_trace es1 doc ++ extractor_trace doc e,
          map (record_of (es1 ++ e :: es2)) pre,
          Failed x).
Proof.
  intros Hpre H1 Hx.
  pose proof (next_fails es1 es2 e doc post x H1 Hx) as Hnext.
  assert (Hk : forall k,
             consume (List.length pre + S k)
               (extract (pre ++ doc :: post) (es1 ++ e :: es2))
             = (flat_map (record_trace (es1 ++ e :: es2)) pre
                  ++ record_trace es1 doc ++ extractor_trace doc e,
                map (record_of (es1 ++ e :: es2)) pre,
                Failed x)).
  { intros k. unfold extract. rewrite consume_prefix by exact Hpre.
    cbn [consume]. rewrite Hnext. rewrite app_nil_r. reflexivity. }
  split; [exact Hnext|]. split; [reflexivity|]. split; [exact Hk|].
  unfold py_list. cbn [remaining extract].
  rewrite length_app. cbn [List.length].
  replace (S (List.length pre + S (List.length post)))
    with (List.length pre + S (S (List.length post))) by lia.
  apply Hk.
Qed.

Lemma extract_no_recovery_witness :
  py_list (C := Samples.world)
    (extract Samples.broken_second [new_BlobExtractor None; new_JSONExtractor None])
  = ([Opened "a"; Closed "a"; Opened "a"; Closed "a";
      Opened "b"; Closed "b"; Opened "b"; Closed "b"],
     [record_of (C := Samples.world) [new_BlobExtractor None; new_JSONExtractor None]
        (Samples.file_of Samples.plain, "a")],
     Failed JSONDecodeError).
Proof.
  refine (proj2 (proj2 (proj2
    (extract_no_recovery (C := Samples.world)
       [(Samples.file_of Samples.plain, "a")]
       [(Samples.file_of Samples.one_picture, "c")]
       (Samples.broken_file, "b")
       [new_BlobExtractor None] [] (new_JSONExtractor None) JSONDecodeError
       _ _ _)))).
  - intros d e' [<- | []] [<- | [<- | []]]; eexists; reflexivity.
  - intros e' [<- | []]. eexists. reflexivity.
  - reflexivity.
Defined.

(** Claim C8.  Calling [extract] runs nothing: before the first request
    the trace is empty and the generator is suspended before the whole
    reader.  After as many requests as there are documents in a prefix
    of the reader that is processed without an exception, the trace
    holds the events of those documents only, and the rest of the reader
    has not been touched.  If the next document is not valid JSON and
    [JSONExtractor] is the first extractor to fail on it, the parse
    error is raised by the request for that document's record: the
    requests before it returned the records of the earlier documents. *)
Theorem extract_is_lazy `{C : Collaborators}
    (pre rest : list document) (extractors : list extractor) :
  (forall d e, In d pre -> In e extractors -> succeeds e d) ->
  consume 0 (extract (pre ++ rest) extractors)
    = ([], [], Pending (Suspended (pre ++ rest) extractors))
  /\ consume (List.length pre) (extract (pre ++ rest) extractors)
       = (flat_map (record_trace extractors) pre,
          map (record_of extractors) pre,
          Pending (Suspended rest extractors))
  /\ (forall doc post es1 n es2 x,
        rest = doc :: post ->
        extractors = es1 ++ JSONExtractor n :: es2 ->
        (forall e, In e es1 -> succeeds e doc) ->
        json_loads (content (fst doc)) = Raise x ->
        next (Suspended rest extractors)
          = (record_trace es1 doc ++ [Opened (snd doc); Closed (snd doc)],
             Raised x, Finished)
        /\ consume (S (List.length pre)) (extract (pre ++ rest) extractors)
             = (flat_map (record_trace extractors) pre
                  ++ record_trace es1 doc ++ [Opened (snd doc); Closed (snd doc)],
                map (record_of extractors) pre,
                Failed x)).
Proof.
  intros Hpre.
  assert (Hk : consume (List.length pre) (extract (pre ++ rest) extractors)
               = (flat_map (record_trace extractors) pre,
                  map (record_of extractors) pre,
                  Pending (Suspended rest extractors))).
  { unfold extract. rewrite <- (Nat.add_0_r (List.length pre)).
    rewrite consume_prefix by exact Hpre. cbn. rewrite !app_nil_r. reflexivity. }
  split; [reflexivity|]. split; [exact Hk|].
  intros doc post es1 n es2 x -> -> H1 Hx.
  assert (Hcall : outcome (call (JSONExtractor n) (handle_open (fst doc)) (snd doc))
                  = Raise x).
  { cbn. unfold read. cbn. exact Hx. }
  assert (Htrace : extractor_trace doc (JSONExtractor n)
                   = [Opened (snd doc); Closed (snd doc)]).
  { unfold extractor_trace. cbn. reflexivity. }
  pose proof (next_fails es1 es2 (JSONExtractor n) doc post x H1 Hcall) as Hnext.
  rewrite Htrace in Hnext. split; [exact Hnext|].
  unfold extract. replace (S (List.length pre)) with (List.length pre + 1) by lia.
  rewrite consume_prefix by exact Hpre.
  cbn [consume]. rewrite Hnext. rewrite app_nil_r. reflexivity.
Qed.

Lemma extract_is_lazy_witness :
  consume (C := Samples.world) 1
    (extract Samples.broken_second [new_JSONExtractor None])
  = ([Opened "a"; Closed "a"],
     [[("JSONExtractor", PDict Samples.plain); ("name", PStr "a")]],
     Pending (Suspended [(Samples.broken_file, "b");
                         (Samples.file_of Samples.one_picture, "c")]
                [new_JSONExtractor None]))
  /\ consume (C := Samples.world) 2
       (extract Samples.broken_second [new_JSONExtractor None])
     = ([Opened "a"; Closed "a"; Opened "b"; Closed "b"],
        [[("JSONExtractor", PDict Samples.plain); ("name", PStr "a")]],
        Failed JSONDecodeError).
Proof.
  destruct (extract_is_lazy (C := Samples.world)
              [(Samples.file_of Samples.plain, "a")]
              [(Samples.broken_file, "b"); (Samples.file_of Samples.one_picture, "c")]
              [new_JSONExtractor None]) as (_ & Hone & Hjson).
  - intros d e [<- | []] [<- | []]. eexists. reflexivity.
  - split; [exact Hone|].
    destruct (Hjson (Samples.broken_file, "b")
                [(Samples.file_of Samples.one_picture, "c")]
                [] "JSONExtractor" [] JSONDecodeError eq_refl eq_refl) as (_ & Htwo).
    + intros e [].
    + reflexivity.
    + exact Htwo.
Defined.

(** Claim C7.  For every extractor class, the object built with an
    explicit name has that name, and the object built with the name
    omitted (or [None]) has the name of its class; this holds of the
    construction alone, whether or not the object can be called.  When
    the extractor returns [v] on a document, [extract] stores [v] under
    exactly that name: in the dictionary being built, and so in the
    record of a pipeline made of this extractor alone, where it is
    followed by the document's name under ['name']. *)
Theorem extractor_name_is_record_key `{C : Collaborators}
    (c : extractor_class) (name : option string) (thumbnails : pyobj)
    (template_file : option string) (doc : document) (d : dict) :
  ext_name (new c name thumbnails template_file)
    = match name with Some s => s | None => class_name c end
  /\ (forall s, ext_name (new c (Some s) thumbnails template_file) = s)
  /\ ext_name (new c None thumbnails template_file) = class_name c
  /\ ext_class (new c name thumbnails template_file) = c
  /\ (forall v,
        outcome (call (new c name thumbnails template_file)
                   (handle_open (fst doc)) (snd doc)) = Ok v ->
        outcome (run_extractor (fst doc) (snd doc)
                   (new c name thumbnails template_file) d)
          = Ok (dict_set (match name with Some s => s | None => class_name c end) v d)
        /\ outcome (build_record [new c name thumbnails template_file] doc)
             = Ok (dict_set "name" (PStr (snd doc))
                     [(match name with Some s => s | None => class_name c end, v)])).
Proof.
  assert (Hname : ext_name (new c name thumbnails template_file)
                  = match name with Some s => s | None => class_name c end).
  { destruct c, name; reflexivity. }
  split; [exact Hname|]. split; [intros s; destruct c; reflexivity|].
  split; [destruct c; reflexivity|]. split; [destruct c; reflexivity|].
  intros v Hv. split.
  - rewrite run_extractor_eq, Hv, Hname. reflexivity.
  - destruct doc as [nb docname]. unfold build_record. cbn [for_each].
    rewrite run_extractor_eq. cbn [fst snd] in Hv |- *. rewrite Hv, Hname.
    reflexivity.
Qed.

Lemma extractor_name_is_record_key_witness :
  ext_name (new_BlobExtractor (Some "raw")) = "raw"
  /\ ext_name (new_Extractor None) = "Extractor"
  /\ map dict_keys
       (snd (fst (py_list (C := Samples.world)
                    (extract Samples.two_documents [new_BlobExtractor (Some "raw")]))))
     = [["raw"; "name"]; ["raw"; "name"]]
  /\ outcome (build_record (C := Samples.world) [new_MetadataExtractor None (PBool false)]
                (Samples.file_of Samples.one_picture, "b"))
     = Ok [("MetadataExtractor", PDict [("title", PStr "one")]); ("name", PStr "b")].
Proof.
  split; [|split; [|split]].
  - exact (proj1 (extractor_name_is_record_key (C := Samples.world)
                    CBlobExtractor (Some "raw") PNone None
                    (Samples.file_of Samples.plain, "a") [])).
  - exact (proj1 (extractor_name_is_record_key (C := Samples.world)
                    CExtractor None PNone None
                    (Samples.file_of Samples.plain, "a") [])).
  - reflexivity.
  - exact (proj2 (proj2 (proj2 (proj2 (proj2
             (extractor_name_is_record_key (C := Samples.world)
                CMetadataExtractor None (PBool false) None
                (Samples.file_of Samples.one_picture, "b") []))))
             (PDict [("title", PStr "one")]) eq_refl)).
Defined.

(** * Further properties of the module *)

(** ** Errors of the parser and of the document's type *)

(** If the stream does not hold a JSON object, the metadata extractor
    raises, whether thumbnails are enabled or not, and prints nothing:
    the parser's own exception when the stream is not JSON, and
    [AttributeError] (from [nb.get]) when it is JSON of another type. *)
Theorem MetadataExtractor_needs_an_object `{C : Collaborators}
    (n : string) (thumbnails : pyobj) (f : stream) (docname : string) :
  (forall doc, json_loads (read f) <> Ok (PDict doc)) ->
  call (MetadataExtractor n thumbnails) f docname
    = ([], Raise (match json_loads (read f) with
                  | Raise e => e
                  | Ok _ => AttributeError
                  end))
  /\ (forall e, json_loads (read f) = Raise e ->
        call (JSONExtractor n) f docname = ([], Raise e)).
Proof.
  intros H. split.
  - cbn [call]. unfold MetadataExtractor_call, JSONExtractor_call.
    destruct (json_loads (read f)) as [nb | e]; [|reflexivity].
    rewrite bind_lift_Ok.
    destruct nb as [| | | | | | | |doc]; try reflexivity.
    contradiction (H doc). reflexivity.
  - intros e He. cbn [call]. unfold JSONExtractor_call. rewrite He. reflexivity.
Qed.

Lemma MetadataExtractor_needs_an_object_witness :
  call (C := Samples.world) (MetadataExtractor "m" default_size)
    (handle_open Samples.broken_file) "b" = ([], Raise JSONDecodeError)
  /\ call (C := Reference.collaborators [PList [PInt 1]])
       (MetadataExtractor "m" (PBool false))
       (handle_open {| content := Reference.encode "[1]" |}) "b"
     = ([], Raise AttributeError).
Proof.
  split.
  - refine (proj1 (MetadataExtractor_needs_an_object (C := Samples.world)
                     "m" default_size (handle_open Samples.broken_file) "b" _)).
    intros doc H. discriminate H.
  - refine (proj1 (MetadataExtractor_needs_an_object
                     (C := Reference.collaborators [PList [PInt 1]])
                     "m" (PBool false)
                     (handle_open {| content := Reference.encode "[1]" |}) "b" _)).
    intros doc H. discriminate H.
Defined.

(** ** The thumbnails of a document *)

Lemma prefix_append (a b : string) : String.prefix a (a ++ b) = true.
Proof.
  induction a as [|c a IH]; cbn.
  - destruct b; reflexivity.
  - destruct (ascii_dec c c) as [_ | Hne]; [exact IH | contradiction Hne; reflexivity].
Qed.

(** What one candidate can do when it does not raise: append one data
    URI and print nothing, or print the diagnostic and append nothing. *)
Lemma thumb_payload_returns `{C : Collaborators} (size : pyobj) (key : string)
    (d : pyobj) (s s' : list string) (t : list event) :
  thumb_payload size key d s = (t, Ok s') ->
  (exists png, t = [] /\ s' = s ++ [data_uri png])
  \/ (t = [Printed ("Can't decode image of type: " ++ key ++ ".")] /\ s' = s).
Proof.
  unfold thumb_payload.
  destruct (decode_image d) as [im | e].
  - destruct (Image_thumbnail im size) as [im' | e]; [|intros H; discriminate H].
    rewrite bind_lift_Ok.
    destruct (Image_save_png im') as [png | e]; [|intros H; discriminate H].
    rewrite bind_lift_Ok. intros H. inversion H; subst.
    left. exists png. split; reflexivity.
  - destruct (isinstance_RuntimeError e); intros H; [|discriminate H].
    inversion H; subst. right. split; reflexivity.
Qed.

Lemma thumb_candidates_count `{C : Collaborators} (size : pyobj)
    (cands : list (string * pyobj)) (s s' : list string) (t : list event) :
  for_each (thumb_candidate size) cands s = (t, Ok s') ->
  exists new,
    s' = s ++ new /\
    List.length new + List.length t = List.length cands /\
    forallb is_data_uri new = true /\
    forallb is_diagnostic t = true.
Proof.
  revert s t. induction cands as [|[key d] cands IH]; intros s t; cbn [for_each].
  - intros H. inversion H; subst. exists []. rewrite app_nil_r. repeat split.
  - unfold thumb_candidate at 1. cbn [fst snd].
    destruct (thumb_payload size key d s) as [t1 [s1 | e]] eqn:Hp;
      [|intros H; discriminate H].
    rewrite bind_Ok.
    destruct (for_each (thumb_candidate size) cands s1) as [t2 [s2 | e]] eqn:Hl;
      cbn [events outcome fst snd]; intros H; [|discriminate H].
    inversion H; subst.
    destruct (IH s1 t2 Hl) as (new & Hs2 & Hlen & Huri & Hdiag).
    destruct (thumb_payload_returns _ _ _ _ _ _ Hp) as [(png & -> & ->) | [-> ->]].
    + exists (data_uri png :: new). rewrite Hs2, <- app_assoc.
      split; [reflexivity|]. cbn [List.length app forallb].
      split; [lia|]. split; [|exact Hdiag].
      rewrite Huri. unfold is_data_uri, data_uri. rewrite prefix_append.
      reflexivity.
    + exists new. split; [exact Hs2|]. cbn [List.length app forallb].
      split; [lia|]. split; [exact Huri|].
      rewrite Hdiag. unfold is_diagnostic.
      rewrite prefix_append. reflexivity.
Qed.

(** Whenever the enabled extractor returns on a notebook whose cells
    follow the data model, every candidate payload was either turned
    into one entry of [thumbs] or reported by one diagnostic: the number
    of thumbnails plus the number of lines printed is the number of
    candidates, every thumbnail starts with [data:image/png;base64,],
    and every event is a ["Can't decode image of type: ..."] print. *)
Theorem thumbnails_and_diagnostics_count `{C : Collaborators}
    (n : string) (thumbnails : pyobj) (f : stream) (docname : string)
    (doc meta : dict) (cells : list pyobj) (t : list event) (r : pyobj) :
  truthy thumbnails = true ->
  json_loads (read f) = Ok (PDict doc) ->
  metadata_of doc = PDict meta ->
  dict_get "cells" doc = Some (PList cells) ->
  forallb shaped_cell cells = true ->
  call (MetadataExtractor n thumbnails) f docname = (t, Ok r) ->
  exists thumbs,
    r = PDict (dict_set "thumbs" (PList (map PStr thumbs)) meta) /\
    List.length thumbs + List.length t = List.length (candidates cells) /\
    forallb is_data_uri thumbs = true /\
    forallb is_diagnostic t = true.
Proof.
  intros Hth Hdoc Hmeta Hcells Hshape. cbn [call].
  rewrite (MetadataExtractor_call_enabled thumbnails f docname doc meta
             (PList cells) cells Hth Hdoc Hmeta Hcells eq_refl).
  rewrite (thumb_cells_candidates _ _ _ Hshape).
  destruct (for_each (thumb_candidate thumbnails) (candidates cells) [])
    as [t' [thumbs | e]] eqn:Hloop; cbn [events outcome fst snd];
    intros H; [|discriminate H].
  inversion H; subst.
  destruct (thumb_candidates_count _ _ _ _ _ Hloop) as (new & Hnew & Hlen & Huri & Hdiag).
  cbn [app] in Hnew. subst new.
  exists thumbs. repeat split; assumption.
Qed.

Lemma thumbnails_and_diagnostics_count_witness :
  exists thumbs,
    PDict [("title", PStr "three");
           ("thumbs", PList [PStr "data:image/png;base64,SchQ";
                             PStr "data:image/png;base64,SQoU"])]
      = PDict (dict_set "thumbs" (PList (map PStr thumbs)) [("title", PStr "three")]) /\
    List.length thumbs
      + List.length [Printed "Can't decode image of type: image/jpeg."]
      = List.length (candidates (Samples.cells_of Faulty.empty_between)) /\
    forallb is_data_uri thumbs = true /\
    forallb is_diagnostic [Printed "Can't decode image of type: image/jpeg."] = true.
Proof.
  apply (thumbnails_and_diagnostics_count (C := Faulty.world) "m" default_size
           (handle_open (Samples.file_of Faulty.empty_between)) "three"
           Faulty.empty_between [("title", PStr "three")]
           (Samples.cells_of Faulty.empty_between));
    reflexivity.
Defined.

Lemma call_candidate_raises `{C : Collaborators}
    (n : string) (thumbnails : pyobj) (f : stream) (docname : string)
    (doc meta : dict) (cells : list pyobj)
    (pre post : list (string * pyobj)) (cand : string * pyobj)
    (t0 t1 : list event) (ths : list string) (e : exn) :
  truthy thumbnails = true ->
  json_loads (read f) = Ok (PDict doc) ->
  metadata_of doc = PDict meta ->
  dict_get "cells" doc = Some (PList cells) ->
  forallb shaped_cell cells = true ->
  candidates cells = pre ++ cand :: post ->
  for_each (thumb_candidate thumbnails) pre [] = (t0, Ok ths) ->
  thumb_candidate thumbnails cand ths = (t1, Raise e) ->
  call (MetadataExtractor n thumbnails) f docname = (t0 ++ t1, Raise e).
Proof.
  intros Hth Hdoc Hmeta Hcells Hshape Hcand Hpre Hc. cbn [call].
  rewrite (MetadataExtractor_call_enabled thumbnails f docname doc meta
             (PList cells) cells Hth Hdoc Hmeta Hcells eq_refl).
  assert (Hloop : for_each (thumb_candidate thumbnails) (pre ++ cand :: post) []
                  = (t0 ++ t1, Raise e)).
  { rewrite for_each_app, Hpre. cbn [for_each]. unfold bind at 1.
    rewrite Hc. reflexivity. }
  rewrite (thumb_cells_candidates _ _ _ Hshape), Hcand, Hloop. reflexivity.
Qed.

(** A payload whose decoding raises a [RuntimeError] is skipped: the
    thumbnails made before it are kept, the diagnostic naming its key
    is printed at that point, and the payloads after it are processed
    as if it were not there. *)
Theorem RuntimeError_payload_skipped `{C : Collaborators}
    (n : string) (thumbnails : pyobj) (f : stream) (docname : string)
    (doc meta : dict) (cells : list pyobj)
    (pre post : list (string * pyobj)) (key : string) (d : pyobj) (e : exn)
    (t1 t2 : list event) (s1 s2 : list string) :
  truthy thumbnails = true ->
  json_loads (read f) = Ok (PDict doc) ->
  metadata_of doc = PDict meta ->
  dict_get "cells" doc = Some (PList cells) ->
  forallb shaped_cell cells = true ->
  candidates cells = pre ++ (key, d) :: post ->
  decode_image d = Raise e ->
  isinstance_RuntimeError e = true ->
  for_each (thumb_candidate thumbnails) pre [] = (t1, Ok s1) ->
  for_each (thumb_candidate thumbnails) post s1 = (t2, Ok s2) ->
  call (MetadataExtractor n thumbnails) f docname
    = (t1 ++ Printed ("Can't decode image of type: " ++ key ++ ".") :: t2,
       Ok (PDict (dict_set "thumbs" (PList (map PStr s2)) meta))).
Proof.
  intros Hth Hdoc Hmeta Hcells Hshape Hcand Hd He Hpre Hpost. cbn [call].
  rewrite (MetadataExtractor_call_enabled thumbnails f docname doc meta
             (PList cells) cells Hth Hdoc Hmeta Hcells eq_refl).
  assert (Hloop : for_each (thumb_candidate thumbnails) (pre ++ (key, d) :: post) []
                  = (t1 ++ Printed ("Can't decode image of type: " ++ key ++ ".") :: t2,
                     Ok s2)).
  { rewrite for_each_app, Hpre. cbn [for_each].
    change (thumb_candidate thumbnails (key, d)) with (thumb_payload thumbnails key d).
    unfold bind at 1. rewrite (thumb_payload_caught _ _ _ _ e Hd He).
    unfold bind. rewrite Hpost. reflexivity. }
  rewrite (thumb_cells_candidates _ _ _ Hshape), Hcand, Hloop. reflexivity.
Qed.

Lemma RuntimeError_payload_skipped_witness :
  call (C := Faulty.world) (MetadataExtractor "m" default_size)
    (handle_open (Samples.file_of Faulty.empty_between)) "three"
  = ([Printed "Can't decode image of type: image/jpeg."],
     Ok (PDict [("title", PStr "three");
                ("thumbs", PList [PStr "data:image/png;base64,SchQ";
                                  PStr "data:image/png;base64,SQoU"])])).
Proof.
  apply (RuntimeError_payload_skipped (C := Faulty.world) "m" default_size
           (handle_open (Samples.file_of Faulty.empty_between)) "three"
           Faulty.empty_between [("title", PStr "three")]
           (Samples.cells_of Faulty.empty_between)
           [("image/png", Samples.payload 250 100)]
           [("image/png", Samples.payload 10 20)]
           "image/jpeg" (PStr "") RuntimeError
           [] [] ["data:image/png;base64,SchQ"]
           ["data:image/png;base64,SchQ"; "data:image/png;base64,SQoU"]);
    reflexivity.
Defined.

(** The [try] covers the decoding only.  When the image decodes but
    [thumbnail] or [save] raises, the exception leaves the extractor
    whatever its class, a [RuntimeError] included: no metadata is
    returned and the thumbnails made before are lost. *)
Theorem resize_failure_not_recovered `{C : Collaborators}
    (n : string) (thumbnails : pyobj) (f : stream) (docname : string)
    (doc meta : dict) (cells : list pyobj)
    (pre post : list (string * pyobj)) (key : string) (d : pyobj)
    (t0 : list event) (ths : list string) (im : image) (e : exn) :
  truthy thumbnails = true ->
  json_loads (read f) = Ok (PDict doc) ->
  metadata_of doc = PDict meta ->
  dict_get "cells" doc = Some (PList cells) ->
  forallb shaped_cell cells = true ->
  candidates cells = pre ++ (key, d) :: post ->
  for_each (thumb_candidate thumbnails) pre [] = (t0, Ok ths) ->
  decode_image d = Ok im ->
  (Image_thumbnail im thumbnails = Raise e
   \/ exists im', Image_thumbnail im thumbnails = Ok im' /\ Image_save_png im' = Raise e) ->
  call (MetadataExtractor n thumbnails) f docname = (t0, Raise e).
Proof.
  intros Hth Hdoc Hmeta Hcells Hshape Hcand Hpre Hd Hfail.
  rewrite <- (app_nil_r t0).
  apply (call_candidate_raises n thumbnails f docname doc meta cells pre post
           (key, d) t0 [] ths e Hth Hdoc Hmeta Hcells Hshape Hcand Hpre).
  unfold thumb_candidate, thumb_payload. cbn [fst snd]. rewrite Hd.
  destruct Hfail as [Ht | (im' & Ht & Hs)]; rewrite Ht.
  - reflexivity.
  - rewrite bind_lift_Ok, Hs. reflexivity.
Qed.

Lemma resize_failure_not_recovered_witness :
  call (C := Samples.world) (new_MetadataExtractor None (PInt 1))
    (handle_open (Samples.file_of Samples.one_picture)) "one"
  = ([], Raise TypeError).
Proof.
  apply (resize_failure_not_recovered (C := Samples.world) "MetadataExtractor" (PInt 1)
           (handle_open (Samples.file_of Samples.one_picture)) "one"
           Samples.one_picture [("title", PStr "one")]
           (Samples.cells_of Samples.one_picture)
           [] [] "image/png" (Samples.payload 250 100) [] []
           (250%positive, 100%positive) TypeError);
    try reflexivity.
  left. reflexivity.
Defined.

(** A cell that is not a mapping stops the extractor with
    [AttributeError] (from [cell.get]) once the cells before it have
    been processed; what they printed stays printed, and no metadata is
    returned. *)
Theorem cell_must_be_a_mapping `{C : Collaborators}
    (n : string) (thumbnails : pyobj) (f : stream) (docname : string)
    (doc meta : dict) (pre post : list pyobj) (c : pyobj)
    (t0 : list event) (ths : list string) :
  truthy thumbnails = true ->
  json_loads (read f) = Ok (PDict doc) ->
  metadata_of doc = PDict meta ->
  dict_get "cells" doc = Some (PList (pre ++ c :: post)) ->
  (forall d, c <> PDict d) ->
  for_each (thumb_cell thumbnails) pre [] = (t0, Ok ths) ->
  call (MetadataExtractor n thumbnails) f docname = (t0, Raise AttributeError).
Proof.
  intros Hth Hdoc Hmeta Hcells Hc Hpre. cbn [call].
  rewrite (MetadataExtractor_call_enabled thumbnails f docname doc meta
             (PList (pre ++ c :: post)) (pre ++ c :: post)
             Hth Hdoc Hmeta Hcells eq_refl).
  assert (Hloop : for_each (thumb_cell thumbnails) (pre ++ c :: post) []
                  = (t0, Raise AttributeError)).
  { rewrite for_each_app, Hpre. cbn [for_each]. unfold bind at 1.
    assert (Hcell : thumb_cell thumbnails c ths = ([], Raise AttributeError)).
    { destruct c as [| | | | | | | |d]; try reflexivity.
      contradiction (Hc d). reflexivity. }
    rewrite Hcell. cbn. rewrite app_nil_r. reflexivity. }
  rewrite Hloop. reflexivity.
Qed.

Lemma cell_must_be_a_mapping_witness :
  call (C := Reference.collaborators
               [PDict [("cells", PList [Samples.code_cell []; PStr "oops"])]])
    (MetadataExtractor "m" default_size)
    (handle_open (Samples.file_of [("cells", PList [Samples.code_cell []; PStr "oops"])]))
    "nb"
  = ([], Raise AttributeError).
Proof.
  apply (cell_must_be_a_mapping
           (C := Reference.collaborators
                   [PDict [("cells", PList [Samples.code_cell []; PStr "oops"])]])
           "m" default_size
           (handle_open (Samples.file_of
                           [("cells", PList [Samples.code_cell []; PStr "oops"])]))
           "nb"
           [("cells", PList [Samples.code_cell []; PStr "oops"])] []
           [Samples.code_cell []] [] (PStr "oops") [] []);
    try reflexivity.
  intros d H. discriminate H.
Defined.

(** The keys of the mapping that the enabled extractor returns, in
    order: those of the document's metadata when [thumbs] is one of
    them (it keeps its place), and those followed by [thumbs]
    otherwise; so a document without [metadata] gives a mapping whose
    only key is [thumbs]. *)
Theorem thumbs_key_position `{C : Collaborators}
    (n : string) (thumbnails : pyobj) (f : stream) (docname : string)
    (t : list event) (r : pyobj) :
  truthy thumbnails = true ->
  call (MetadataExtractor n thumbnails) f docname = (t, Ok r) ->
  exists doc meta res,
    json_loads (read f) = Ok (PDict doc) /\
    metadata_of doc = PDict meta /\
    r = PDict res /\
    dict_keys res = match dict_get "thumbs" meta with
                    | Some _ => dict_keys meta
                    | None => dict_keys meta ++ ["thumbs"]
                    end /\
    (dict_get "metadata" doc = None -> dict_keys res = ["thumbs"]).
Proof.
  intros Hth Hcall. cbn [call] in Hcall.
  destruct (MetadataExtractor_call_returns _ _ _ _ _ Hth Hcall)
    as (doc & meta & cells & its & thumbs & Hdoc & Hmeta & _ & _ & _ & Hr).
  exists doc, meta, (dict_set "thumbs" (PList (map PStr thumbs)) meta).
  repeat (split; [assumption|]). split.
  - apply dict_keys_set.
  - intros Hnone. unfold metadata_of in Hmeta. rewrite Hnone in Hmeta.
    inversion Hmeta; subst. reflexivity.
Qed.

Lemma thumbs_key_position_witness :
  exists doc meta res,
    json_loads (Collaborators := Samples.world)
      (read (handle_open (Samples.file_of Samples.gallery))) = Ok (PDict doc) /\
    metadata_of doc = PDict meta /\
    PDict [("title", PStr "gallery");
           ("thumbs", PList [PStr "data:image/png;base64,STIU";
                             PStr "data:image/png;base64,SQoU";
                             PStr "data:image/png;base64,SRQy";
                             PStr "data:image/png;base64,SSge"])] = PDict res /\
    dict_keys res = match dict_get "thumbs" meta with
                    | Some _ => dict_keys meta
                    | None => dict_keys meta ++ ["thumbs"]
                    end /\
    (dict_get "metadata" doc = None -> dict_keys res = ["thumbs"]).
Proof.
  apply (thumbs_key_position (C := Samples.world) "m" (PTuple [PInt 50; PInt 50])
           (handle_open (Samples.file_of Samples.gallery)) "gallery" []);
    reflexivity.
Defined.

(** ** The HTML extractor *)

(** [HTMLExtractor] hands the stream to the exporter with the template
    it was built with (['basic.tpl'] when none or an empty one was
    given) and the resources [{'filename': name}].  When the exporter
    returns [(html, meta)], the result is [{'meta': meta', 'html': html}]
    where [meta'] is [meta] with [filename] set to the document's name,
    whatever the exporter had put there, and every other entry kept;
    when the exporter raises, the exception is not caught. *)
Theorem HTMLExtractor_result `{C : Collaborators}
    (name template_file : option string) (f : stream) (docname : string)
    (tpl : string) :
  tpl = match template_file with
        | Some t => if String.eqb t "" then "basic.tpl" else t
        | None => "basic.tpl"
        end ->
  (forall html meta,
     HTMLExporter_from_file tpl f [("filename", PStr docname)] = Ok (html, meta) ->
     exists meta',
       call (new_HTMLExtractor name template_file) f docname
         = ([], Ok (PDict [("meta", PDict meta'); ("html", PStr html)])) /\
       dict_get "filename" meta' = Some (PStr docname) /\
       (forall k, k <> "filename" -> dict_get k meta' = dict_get k meta) /\
       dict_without "filename" meta' = dict_without "filename" meta)
  /\ (forall e,
        HTMLExporter_from_file tpl f [("filename", PStr docname)] = Raise e ->
        call (new_HTMLExtractor name template_file) f docname = ([], Raise e)).
Proof.
  intros ->. split.
  - intros html meta H. exists (dict_set "filename" (PStr docname) meta).
    split; [|split; [|split]].
    + unfold new_HTMLExtractor. cbn [call]. unfold HTMLExtractor_call.
      rewrite H, bind_lift_Ok. reflexivity.
    + apply dict_get_set_same.
    + intros k Hk. apply dict_get_set_other. exact Hk.
    + apply dict_without_set.
  - intros e H. unfold new_HTMLExtractor. cbn [call]. unfold HTMLExtractor_call.
    rewrite H. reflexivity.
Qed.

Lemma HTMLExtractor_result_witness :
  exists meta',
    call (C := Samples.world) (new_HTMLExtractor None (Some ""))
      (handle_open (Samples.file_of Samples.plain)) "a"
      = ([], Ok (PDict [("meta", PDict meta'); ("html", PStr "<!-- basic.tpl -->")])) /\
    dict_get "filename" meta' = Some (PStr "a") /\
    (forall k, k <> "filename" ->
       dict_get k meta' = dict_get k [("filename", PStr "a")]) /\
    dict_without "filename" meta' = dict_without "filename" [("filename", PStr "a")].
Proof.
  apply (proj1 (HTMLExtractor_result (C := Samples.world) None (Some "")
                  (handle_open (Samples.file_of Samples.plain)) "a" "basic.tpl"
                  eq_refl)).
  reflexivity.
Defined.

(** ** More on the generator *)

Lemma consume_all_succeed `{C : Collaborators} (es : list extractor)
    (reader : list document) :
  (forall doc e, In doc reader -> In e es -> succeeds e doc) ->
  py_list (extract reader es)
    = (flat_map (record_trace es) reader, map (record_of es) reader, Exhausted).
Proof.
  intros H. unfold py_list, extract. cbn [remaining].
  rewrite <- (app_nil_r reader) at 2.
  replace (S (List.length reader)) with (List.length reader + 1) by lia.
  rewrite consume_prefix by exact H.
  cbn. rewrite !app_nil_r. reflexivity.
Qed.

(** A pipeline made of a [BlobExtractor] alone never fails, whatever the
    documents hold: it yields one record per document, with the bytes
    of the document under the extractor's name and then the document's
    name under ['name'], and opens each document once. *)
Theorem Blob_pipeline_never_fails `{C : Collaborators}
    (n : string) (reader : list document) :
  py_list (extract reader [BlobExtractor n])
    = (flat_map (fun doc => [Opened (snd doc); Closed (snd doc)]) reader,
       map (fun doc => dict_set "name" (PStr (snd doc))
                         [(n, PBytes (content (fst doc)))]) reader,
       Exhausted).
Proof.
  rewrite consume_all_succeed.
  - reflexivity.
  - intros doc e _ [<- | []]. eexists. reflexivity.
Qed.

(** With no extractor configured, no document is ever opened, and the
    record of each document holds its name and nothing else. *)
Theorem no_extractor_no_open `{C : Collaborators} (reader : list document) :
  py_list (extract reader [])
    = ([], map (fun doc => [("name", PStr (snd doc))]) reader, Exhausted).
Proof.
  rewrite consume_all_succeed.
  - assert (Htrace : flat_map (record_trace []) reader = []).
    { induction reader as [|doc reader IH]; [reflexivity | exact IH]. }
    rewrite Htrace. reflexivity.
  - intros doc e _ [].
Qed.

Lemma dict_get_not_in_keys (k : string) (d : dict) :
  ~ In k (dict_keys d) -> dict_get k d = None.
Proof.
  induction d as [|[k0 v0] d IH]; cbn; intros H; [reflexivity|].
  destruct (String.eqb_spec k k0) as [-> | Hne].
  - contradiction H. left. reflexivity.
  - apply IH. intros Hin. apply H. right. exact Hin.
Qed.

Lemma results_into_keys_in_order `{C : Collaborators} (d : dict)
    (es : list extractor) (doc : document) :
  NoDup (dict_keys d ++ map ext_name es) ->
  dict_keys (results_into d es doc) = dict_keys d ++ map ext_name es.
Proof.
  revert d. induction es as [|e es IH]; intros d Hnd; cbn [results_into fold_left map].
  - rewrite app_nil_r. reflexivity.
  - fold (results_into (dict_set (ext_name e) (result_of e doc) d) es doc).
    assert (Hkeys : dict_keys (dict_set (ext_name e) (result_of e doc) d)
                    = dict_keys d ++ [ext_name e]).
    { rewrite dict_keys_set, dict_get_not_in_keys; [reflexivity|].
      intros Hin. apply NoDup_remove_2 in Hnd. apply Hnd.
      apply in_or_app. left. exact Hin. }
    rewrite IH; rewrite Hkeys, <- app_assoc; [reflexivity | exact Hnd].
Qed.

(** When the extractors have distinct names, none of them ['name'], and
    all return on a document, the record yielded for it lists its keys
    in the order the extractors were configured, with ['name'] last. *)
Theorem record_keys_in_order `{C : Collaborators}
    (es : list extractor) (doc : document) (rest : list document) :
  (forall e, In e es -> succeeds e doc) ->
  NoDup (map ext_name es) ->
  ~ In "name" (map ext_name es) ->
  exists d,
    next (Suspended (doc :: rest) es) = (record_trace es doc, Yield d, Suspended rest es)
    /\ dict_keys d = map ext_name es ++ ["name"].
Proof.
  intros Hok Hnd Hname. exists (record_of es doc). split.
  - cbn [next]. rewrite (build_record_succeeds es doc Hok). reflexivity.
  - unfold record_of.
    pose proof (results_into_keys_in_order [] es doc Hnd) as Hkeys.
    cbn [dict_keys map app] in Hkeys. fold (dict_keys (results_into [] es doc)) in Hkeys.
    rewrite dict_keys_set, dict_get_not_in_keys.
    + rewrite Hkeys. reflexivity.
    + rewrite Hkeys. exact Hname.
Qed.

Lemma record_keys_in_order_witness :
  exists d,
    next (C := Samples.world)
      (Suspended Samples.two_documents
         [new_MetadataExtractor None (PBool true); new_BlobExtractor (Some "raw");
          new_JSONExtractor None])
    = (record_trace (C := Samples.world)
         [new_MetadataExtractor None (PBool true); new_BlobExtractor (Some "raw");
          new_JSONExtractor None] (Samples.file_of Samples.plain, "a"),
       Yield d,
       Suspended [(Samples.file_of Samples.one_picture, "b")]
         [new_MetadataExtractor None (PBool true); new_BlobExtractor (Some "raw");
          new_JSONExtractor None])
    /\ dict_keys d = ["MetadataExtractor"; "raw"; "JSONExtractor"; "name"].
Proof.
  apply (record_keys_in_order (C := Samples.world)
           [new_MetadataExtractor None (PBool true); new_BlobExtractor (Some "raw");
            new_JSONExtractor None]
           (Samples.file_of Samples.plain, "a")
           [(Samples.file_of Samples.one_picture, "b")]).
  - intros e [<- | [<- | [<- | []]]]; eexists; reflexivity.
  - repeat constructor; cbn; intuition discriminate.
  - cbn. intuition discriminate.
Defined.

(** *** What the extractors print, and the streams they leave open *)

Lemma diagnostics_bind {A B} (m : M A) (k : A -> M B) :
  forallb is_diagnostic (events m) = true ->
  (forall a, forallb is_diagnostic (events (k a)) = true) ->
  forallb is_diagnostic (events (bind m k)) = true.
Proof.
  intros Hm Hk. destruct m as [t [a | e]]; [|exact Hm].
  rewrite bind_Ok. cbn [events fst] in *. rewrite forallb_app, Hm. apply Hk.
Qed.

Lemma diagnostics_for_each {A S} (body : A -> S -> M S) (l : list A) (s : S) :
  (forall x s', forallb is_diagnostic (events (body x s')) = true) ->
  forallb is_diagnostic (events (for_each body l s)) = true.
Proof.
  intros H. revert s. induction l as [|x l IH]; intros s; cbn [for_each].
  - reflexivity.
  - apply diagnostics_bind; [apply H | exact IH].
Qed.

Lemma diagnostics_lift {A} (r : pyresult A) :
  forallb is_diagnostic (events (lift r)) = true.
Proof. reflexivity. Qed.

Lemma thumb_payload_diagnostics `{C : Collaborators} (size : pyobj) (key : string)
    (d : pyobj) (s : list string) :
  forallb is_diagnostic (events (thumb_payload size key d s)) = true.
Proof.
  unfold thumb_payload. destruct (decode_image d) as [im | e].
  - apply diagnostics_bind; [apply diagnostics_lift|]. intros im'.
    apply diagnostics_bind; [apply diagnostics_lift|]. reflexivity.
  - destruct (isinstance_RuntimeError e); [|reflexivity].
    unfold bind, emit, ret, events. cbn [fst app forallb is_diagnostic].
    rewrite prefix_append. reflexivity.
Qed.

Lemma thumb_cell_diagnostics `{C : Collaborators} (size : pyobj) (cell : pyobj)
    (s : list string) :
  forallb is_diagnostic (events (thumb_cell size cell s)) = true.
Proof.
  unfold thumb_cell.
  apply diagnostics_bind; [apply diagnostics_lift|]. intros outputs.
  apply diagnostics_bind; [apply diagnostics_lift|]. intros outs.
  apply diagnostics_for_each. intros out s'. unfold thumb_output.
  apply diagnostics_bind; [apply diagnostics_lift|]. intros ot.
  destruct (py_eq_str ot "display_data"); [|reflexivity].
  apply diagnostics_bind; [apply diagnostics_lift|]. intros dat.
  apply diagnostics_bind; [apply diagnostics_lift|]. intros items.
  apply diagnostics_for_each. intros [key v] s''. unfold thumb_item.
  destruct (str_in (lower key) image_types); [|reflexivity].
  apply diagnostics_for_each. intros d s3. apply thumb_payload_diagnostics.
Qed.

Lemma call_diagnostics `{C : Collaborators} (e : extractor) (f : stream)
    (name : string) :
  forallb is_diagnostic (events (call e f name)) = true.
Proof.
  destruct e as [n | n | n thumbnails | n | n tpl]; cbn [call]; try reflexivity.
  - unfold MetadataExtractor_call.
    apply diagnostics_bind; [apply diagnostics_lift|]. intros nb.
    apply diagnostics_bind; [apply diagnostics_lift|]. intros meta.
    destruct (truthy thumbnails); [|reflexivity].
    apply diagnostics_bind; [apply diagnostics_lift|]. intros meta'.
    apply diagnostics_bind; [apply diagnostics_lift|]. intros cells.
    apply diagnostics_bind; [apply diagnostics_lift|]. intros its.
    apply diagnostics_bind; [|intros thumbs; apply diagnostics_lift].
    apply diagnostics_for_each. intros cell s. apply thumb_cell_diagnostics.
  - unfold HTMLExtractor_call.
    apply diagnostics_bind; [apply diagnostics_lift|]. intros [html meta].
    reflexivity.
Qed.

(** Whatever the extractor and the stream, and whether the call returns
    or raises, the only thing an extractor prints is the diagnostic of
    the metadata extractor; the JSON, blob and HTML extractors print
    nothing at all, and so does the metadata extractor when thumbnails
    are disabled. *)
Theorem extractors_print_only_diagnostics `{C : Collaborators}
    (e : extractor) (f : stream) (name : string) :
  forallb is_diagnostic (events (call e f name)) = true
  /\ (match e with
      | MetadataExtractor _ thumbnails => truthy thumbnails = false
      | _ => True
      end -> events (call e f name) = []).
Proof.
  split.
  - apply call_diagnostics.
  - destruct e as [n | n | n thumbnails | n | n tpl]; cbn [call]; intros H;
      try reflexivity.
    + unfold MetadataExtractor_call, JSONExtractor_call.
      destruct (json_loads (read f)) as [nb | x]; [|reflexivity].
      rewrite bind_lift_Ok.
      destruct (py_get nb "metadata" (PDict [])) as [meta | x]; [|reflexivity].
      rewrite bind_lift_Ok, H. reflexivity.
    + unfold HTMLExtractor_call.
      destruct (HTMLExporter_from_file tpl f [("filename", PStr name)])
        as [[html meta] | x]; reflexivity.
Qed.

Lemma extractors_print_only_diagnostics_witness :
  forallb is_diagnostic
    (events (call (C := Faulty.world) (MetadataExtractor "m" default_size)
               (handle_open (Samples.file_of Faulty.empty_between)) "three")) = true
  /\ events (call (C := Faulty.world) (MetadataExtractor "m" PNone)
               (handle_open (Samples.file_of Faulty.empty_between)) "three") = [].
Proof.
  split.
  - exact (proj1 (extractors_print_only_diagnostics (C := Faulty.world)
                    (MetadataExtractor "m" default_size)
                    (handle_open (Samples.file_of Faulty.empty_between)) "three")).
  - exact (proj2 (extractors_print_only_diagnostics (C := Faulty.world)
                    (MetadataExtractor "m" PNone)
                    (handle_open (Samples.file_of Faulty.empty_between)) "three")
             eq_refl).
Defined.

Lemma balanced_skip_diagnostics (opened : option string) (t t' : list event) :
  forallb is_diagnostic t = true ->
  balanced_from opened (t ++ t') = balanced_from opened t'.
Proof.
  induction t as [|ev t IH]; cbn [forallb app]; intros H; [reflexivity|].
  apply andb_true_iff in H. destruct H as [Hev Ht].
  destruct ev as [n | n | msg]; try discriminate Hev.
  cbn [balanced_from]. apply IH. exact Ht.
Qed.

Lemma balanced_extractor_trace `{C : Collaborators} (doc : document) (e : extractor)
    (t' : list event) :
  balanced_from None (extractor_trace doc e ++ t') = balanced_from None t'.
Proof.
  unfold extractor_trace. cbn [app balanced_from]. rewrite <- app_assoc.
  rewrite balanced_skip_diagnostics by apply call_diagnostics.
  cbn [app balanced_from]. rewrite String.eqb_refl. reflexivity.
Qed.

Lemma balanced_extractors `{C : Collaborators} (nb : handle) (name : string)
    (es : list extractor) (d : dict) (t' : list event) :
  balanced_from None (events (for_each (run_extractor nb name) es d) ++ t')
    = balanced_from None t'.
Proof.
  revert d. induction es as [|e es IH]; intros d; cbn [for_each].
  - reflexivity.
  - rewrite run_extractor_eq.
    destruct (outcome (call e (handle_open nb) name)) as [v | x].
    + rewrite bind_Ok. cbn [events fst]. rewrite <- app_assoc.
      rewrite balanced_extractor_trace. apply IH.
    + cbn [bind events fst]. apply balanced_extractor_trace.
Qed.

Lemma balanced_next `{C : Collaborators} (g : generator) (t' : list event) :
  balanced_from None (fst (fst (next g)) ++ t') = balanced_from None t'.
Proof.
  destruct g as [[|[nb name] reader] es |]; try reflexivity.
  cbn [next]. unfold build_record.
  pose proof (balanced_extractors nb name es [] t') as H.
  destruct (for_each (run_extractor nb name) es []) as [t [d | x]];
    cbn [events fst] in H; cbn; [rewrite app_nil_r|]; exact H.
Qed.

(** Streams are opened one at a time and always closed: in the trace of
    any number of requests to any generator, every [open()] is followed
    by the close of the same document before the next [open()], also
    when an extractor raised in between and at the end of the trace. *)
Theorem every_open_is_closed `{C : Collaborators} (n : nat) (g : generator) :
  balanced_from None (fst (fst (consume n g))) = true.
Proof.
  revert g. induction n as [|n IH]; intros g; cbn [consume]; [reflexivity|].
  pose proof (balanced_next g) as Hnext.
  destruct (next g) as [[t s] g']. cbn [fst] in Hnext.
  destruct s as [d | | x].
  - specialize (IH g'). destruct (consume n g') as [[t1 ds] ending].
    cbn [fst] in IH |- *. rewrite Hnext. exact IH.
  - cbn [fst]. rewrite <- (app_nil_r t), Hnext. reflexivity.
  - cbn [fst]. rewrite <- (app_nil_r t), Hnext. reflexivity.
Qed.

Lemma py_list_cons `{C : Collaborators} (doc : document) (reader : list document)
    (es : list extractor) :
  py_list (extract (doc :: reader) es) =
    match build_record es doc with
    | (t, Ok d) =>
        let '(t', ds, ending) := py_list (extract reader es) in (t ++ t', d :: ds, ending)
    | (t, Raise x) => (t, [], Failed x)
    end.
Proof.
  unfold py_list, extract. cbn [remaining List.length].
  change (consume (S (S (List.length reader))) (Suspended (doc :: reader) es))
    with (match next (Suspended (doc :: reader) es) with
          | (t, Yield d, g') =>
              let '(t', ds, e) := consume (S (List.length reader)) g' in
              (t ++ t', d :: ds, e)
          | (t, StopIteration, _) => (t, [], Exhausted)
          | (t, Raised e, _) => (t, [], Failed e)
          end).
  cbn [next]. destruct (build_record es doc) as [t [d | x]]; reflexivity.
Qed.

(** Reading two readers one after the other: [extract] on their
    concatenation gives the records of the first followed by those of
    the second, unless an extractor raises on the first, in which case
    the second is never touched. *)
Theorem extract_concatenation `{C : Collaborators}
    (r1 r2 : list document) (es : list extractor) :
  py_list (extract (r1 ++ r2) es) =
    match py_list (extract r1 es) with
    | (t1, ds1, Exhausted) =>
        let '(t2, ds2, ending) := py_list (extract r2 es) in
        (t1 ++ t2, ds1 ++ ds2, ending)
    | failed => failed
    end.
Proof.
  induction r1 as [|doc r1 IH].
  - cbn [app]. destruct (py_list (extract r2 es)) as [[t2 ds2] ending]. reflexivity.
  - cbn [app]. rewrite !py_list_cons.
    destruct (build_record es doc) as [t [d | x]]; [|reflexivity].
    rewrite IH.
    destruct (py_list (extract r1 es)) as [[t1 ds1] [g1 | | x]]; try reflexivity.
    destruct (py_list (extract r2 es)) as [[t2 ds2] ending].
    rewrite app_assoc. reflexivity.
Qed.

(** ** Documents without images, and the order of the thumbnails *)

Lemma flat_map_all_nil {A B} (g : A -> list B) (l : list A) :
  (forall x, In x l -> g x = []) -> flat_map g l = [].
Proof.
  induction l as [|x l IH]; intros H; cbn [flat_map]; [reflexivity|].
  rewrite (H x (or_introl eq_refl)), IH; [reflexivity|].
  intros y Hy. apply H. right. exact Hy.
Qed.

(** With thumbnails enabled, a notebook whose cells follow the data
    model and hold no [display_data] output is answered with its
    metadata and an empty [thumbs] list; nothing is decoded and nothing
    is printed. *)
Theorem no_display_data_no_thumbs `{C : Collaborators}
    (n : string) (thumbnails : pyobj) (f : stream) (docname : string)
    (doc meta : dict) (cells : list pyobj) :
  truthy thumbnails = true ->
  json_loads (read f) = Ok (PDict doc) ->
  metadata_of doc = PDict meta ->
  dict_get "cells" doc = Some (PList cells) ->
  forallb shaped_cell cells = true ->
  (forall cell out, In cell cells -> In out (outputs_of cell) ->
                    is_display_data out = false) ->
  call (MetadataExtractor n thumbnails) f docname
    = ([], Ok (PDict (dict_set "thumbs" (PList []) meta))).
Proof.
  intros Hth Hdoc Hmeta Hcells Hshape Hnone. cbn [call].
  rewrite (MetadataExtractor_call_enabled thumbnails f docname doc meta
             (PList cells) cells Hth Hdoc Hmeta Hcells eq_refl).
  rewrite (thumb_cells_candidates _ _ _ Hshape).
  assert (Hcand : candidates cells = []).
  { apply flat_map_all_nil. intros cell Hcell.
    apply flat_map_all_nil. intros out Hout.
    unfold output_candidates. rewrite (Hnone cell out Hcell Hout). reflexivity. }
  rewrite Hcand. reflexivity.
Qed.

Lemma no_display_data_no_thumbs_witness :
  call (C := Samples.world) (MetadataExtractor "m" default_size)
    (handle_open (Samples.file_of Samples.plain)) "plain"
  = ([], Ok (PDict [("kernelspec", PDict [("name", PStr "python3")]);
                    ("thumbs", PList []); ("title", PStr "demo")])).
Proof.
  apply (no_display_data_no_thumbs (C := Samples.world) "m" default_size
           (handle_open (Samples.file_of Samples.plain)) "plain"
           Samples.plain Samples.kernel (Samples.cells_of Samples.plain));
    try reflexivity.
  intros cell out [<- | [<- | []]] [].
Defined.

(** What a candidate does to the list does not depend on the list. *)
Lemma thumb_payload_alone `{C : Collaborators} (size : pyobj) (key : string)
    (d : pyobj) (s s' : list string) :
  thumb_payload size key d s = ([], Ok s') ->
  exists uri, s' = s ++ [uri] /\ thumb_payload size key d [] = ([], Ok [uri]).
Proof.
  unfold thumb_payload.
  destruct (decode_image d) as [im | e].
  - destruct (Image_thumbnail im size) as [im' | e]; [|intros H; discriminate H].
    rewrite !bind_lift_Ok.
    destruct (Image_save_png im') as [png | e]; [|intros H; discriminate H].
    rewrite !bind_lift_Ok. intros H. inversion H; subst.
    exists (data_uri png). split; reflexivity.
  - destruct (isinstance_RuntimeError e); intros H; discriminate H.
Qed.

Lemma thumb_candidates_in_order `{C : Collaborators} (size : pyobj)
    (cands : list (string * pyobj)) (s s' : list string) :
  for_each (thumb_candidate size) cands s = ([], Ok s') ->
  exists new,
    s' = s ++ new /\
    Forall2 (fun cand uri => thumb_payload size (fst cand) (snd cand) [] = ([], Ok [uri]))
      cands new.
Proof.
  revert s. induction cands as [|[key d] cands IH]; intros s; cbn [for_each].
  - intros H. inversion H; subst. exists []. rewrite app_nil_r.
    split; [reflexivity | constructor].
  - unfold thumb_candidate at 1. cbn [fst snd].
    destruct (thumb_payload size key d s) as [t1 [s1 | e]] eqn:Hp;
      [|intros H; discriminate H].
    rewrite bind_Ok.
    destruct (for_each (thumb_candidate size) cands s1) as [t2 [s2 | e]] eqn:Hl;
      cbn [events outcome fst snd]; intros H; [|discriminate H].
    inversion H as [[Ht Hs]]. apply app_eq_nil in Ht. destruct Ht as [-> ->].
    subst s2.
    destruct (thumb_payload_alone _ _ _ _ _ Hp) as (uri & -> & Halone).
    destruct (IH _ Hl) as (new & -> & Hall).
    exists (uri :: new). rewrite <- app_assoc. split; [reflexivity|].
    constructor; [exact Halone | exact Hall].
Qed.

(** When the enabled extractor returns without having printed anything,
    [thumbs] has one entry per candidate payload, in the order of the
    candidates, and the entry of a candidate is the data URI that this
    payload gives when processed alone: the i-th thumbnail belongs to
    the i-th image of the document. *)
Theorem thumbs_follow_document_order `{C : Collaborators}
    (n : string) (thumbnails : pyobj) (f : stream) (docname : string)
    (doc meta : dict) (cells : list pyobj) (r : pyobj) :
  truthy thumbnails = true ->
  json_loads (read f) = Ok (PDict doc) ->
  metadata_of doc = PDict meta ->
  dict_get "cells" doc = Some (PList cells) ->
  forallb shaped_cell cells = true ->
  call (MetadataExtractor n thumbnails) f docname = ([], Ok r) ->
  exists thumbs,
    r = PDict (dict_set "thumbs" (PList (map PStr thumbs)) meta) /\
    Forall2 (fun cand uri =>
               thumb_payload thumbnails (fst cand) (snd cand) [] = ([], Ok [uri]))
      (candidates cells) thumbs.
Proof.
  intros Hth Hdoc Hmeta Hcells Hshape. cbn [call].
  rewrite (MetadataExtractor_call_enabled thumbnails f docname doc meta
             (PList cells) cells Hth Hdoc Hmeta Hcells eq_refl).
  rewrite (thumb_cells_candidates _ _ _ Hshape).
  destruct (for_each (thumb_candidate thumbnails) (candidates cells) [])
    as [t' [thumbs | e]] eqn:Hloop; cbn [events outcome fst snd];
    intros H; [|discriminate H].
  inversion H; subst.
  destruct (thumb_candidates_in_order _ _ _ _ Hloop) as (new & Hnew & Hall).
  cbn [app] in Hnew. subst new.
  exists thumbs. split; [reflexivity | exact Hall].
Qed.

Lemma thumbs_follow_document_order_witness :
  exists thumbs,
    PDict [("title", PStr "gallery");
           ("thumbs", PList [PStr "data:image/png;base64,STIU";
                             PStr "data:image/png;base64,SQoU";
                             PStr "data:image/png;base64,SRQy";
                             PStr "data:image/png;base64,SSge"])]
      = PDict (dict_set "thumbs" (PList (map PStr thumbs)) [("title", PStr "gallery")]) /\
    Forall2 (fun cand uri =>
               thumb_payload (C := Samples.world) (PTuple [PInt 50; PInt 50])
                 (fst cand) (snd cand) [] = ([], Ok [uri]))
      (candidates (Samples.cells_of Samples.gallery)) thumbs.
Proof.
  apply (thumbs_follow_document_order (C := Samples.world) "m" (PTuple [PInt 50; PInt 50])
           (handle_open (Samples.file_of Samples.gallery)) "gallery"
           Samples.gallery [("title", PStr "gallery")]
           (Samples.cells_of Samples.gallery));
    reflexivity.
Defined.
